(** * Orchestrator-AI: mission orchestration engine, rate limiter and key failover

    Shallow embedding of [App.tsx] (the mission state machine, the token
    rate limiter and its cooldown timer, session loading) and of
    [services/geminiService.ts] (the per-key failover loop and the agent
    service functions).

    Conventions of the embedding:
    - JS numbers used as token counts, times and periods are [Z]; the
      rate-limit ratio [(tokenUsage / maxTokens) * 100 >= 80] is computed in
      exact rational arithmetic ([Q]).
    - A JS object used as a string-keyed map ([AgentPrompts]) is a
      [gmap string string].
    - Log entries keep [agent], [message] and [type]; their random [id] and
      their [timestamp] are not modelled.
    - React's [setState(s => ...)] updaters run one after the other in a
      single thread: a step threads the state through them in order.
      [stateRef.current] read before the first [await] of a step is the
      step's snapshot [current]; read after an [await], it is the state
      produced by the updaters issued so far.
    - [Date.now()] is an explicit input ([now], or the times of a step).
    - A JS string is a sequence of UTF-16 code units; a [string] here holds
      code units U+0000..U+00FF (Latin-1), one [ascii] byte per unit.
      [trim] and [toLowerCase] follow JavaScript exactly on that range;
      strings with code units above U+00FF are outside the model. *)

From Stdlib Require Import ZArith QArith String Ascii List Bool Lia.
From stdpp Require Import base gmap strings list pretty.

Local Open Scope Z_scope.

(* ------------------------------------------------------------------ *)
(** ** Types ([types.ts]) *)

Inductive AgentRole :=
  | SUPERVISOR | RESEARCHER | ANALYST | WRITER | EDITOR | CODER.

(** The string value of each enum member. *)
Definition role_name (r : AgentRole) : string :=
  match r with
  | SUPERVISOR => "Supervisor"
  | RESEARCHER => "Researcher"
  | ANALYST => "Analyst"
  | WRITER => "Writer"
  | EDITOR => "Editor"
  | CODER => "Coder"
  end.

Definition all_roles : list AgentRole :=
  [SUPERVISOR; RESEARCHER; ANALYST; WRITER; EDITOR; CODER].

(** [AgentPrompts = Record<AgentRole, string>], held as a JS object. *)
Abbreviation AgentPrompts := (gmap string string).

Inductive TaskStatus := Pending | InProgress | Completed | Failed.

(** [Task]; [assignedAgent] holds the role's string value (re-planned tasks
    copy whatever string the model returned). *)
Record Task := mkTask {
  id : string;
  title : string;
  description : string;
  assignedAgent : string;
  status : TaskStatus;
  result : option string;
  usage : option Z
}.

Inductive LogType := LPlan | LAction | LResult | LError | LInfo.

Record LogEntry := mkLog {
  log_agent : string;
  log_message : string;
  log_type : LogType
}.

Inductive PeriodUnit := Seconds | Minutes | Hours.

Record RateLimitConfig := mkConfig {
  maxTokens : Z;
  periodValue : Z;
  periodUnit : PeriodUnit;
  autoResumeMinutes : Z
}.

Inductive Status :=
  | Idle | Planning | Working | Cooldown | CompletedS | ErrorS | Paused | AutoPaused.

Definition status_eqb (a b : Status) : bool :=
  match a, b with
  | Idle, Idle | Planning, Planning | Working, Working | Cooldown, Cooldown
  | CompletedS, CompletedS | ErrorS, ErrorS | Paused, Paused
  | AutoPaused, AutoPaused => true
  | _, _ => false
  end.

Record AppState := mkState {
  st_status : Status;
  tasks : list Task;
  logs : list LogEntry;
  currentTaskIndex : nat;
  tokenUsage : Z;
  windowStartTime : Z;
  nextAllowedQueryTime : Z;
  finalOutput : option string;
  agentPrompts : AgentPrompts
}.

(** Record update helpers (the [{ ...s, field: v }] spreads). *)
Definition set_status (v : Status) (s : AppState) : AppState :=
  mkState v s.(tasks) s.(logs) s.(currentTaskIndex) s.(tokenUsage)
    s.(windowStartTime) s.(nextAllowedQueryTime) s.(finalOutput) s.(agentPrompts).

Definition set_tasks (v : list Task) (s : AppState) : AppState :=
  mkState s.(st_status) v s.(logs) s.(currentTaskIndex) s.(tokenUsage)
    s.(windowStartTime) s.(nextAllowedQueryTime) s.(finalOutput) s.(agentPrompts).

Definition set_logs (v : list LogEntry) (s : AppState) : AppState :=
  mkState s.(st_status) s.(tasks) v s.(currentTaskIndex) s.(tokenUsage)
    s.(windowStartTime) s.(nextAllowedQueryTime) s.(finalOutput) s.(agentPrompts).

(* ------------------------------------------------------------------ *)
(** ** Rate limiting ([checkRateLimit]) *)

Definition periodMs (cfg : RateLimitConfig) : Z :=
  match cfg.(periodUnit) with
  | Seconds => cfg.(periodValue) * 1000
  | Minutes => cfg.(periodValue) * 60 * 1000
  | Hours => cfg.(periodValue) * 60 * 60 * 1000
  end.

Definition percentageUsed (tokenUsage maxTokens : Z) : Q :=
  (inject_Z tokenUsage / inject_Z maxTokens) * inject_Z 100.

(** [checkRateLimit]: decides from [stateRef.current] ([ref]) and
    [configRef]; returns the permission and the [setState] updater it
    issues (applied by the caller to the latest state). *)
Definition checkRateLimit (cfg : RateLimitConfig) (now : Z) (ref : AppState)
  : bool * (AppState -> AppState) :=
  let pms := periodMs cfg in
  let elapsed := now - ref.(windowStartTime) in
  if pms <? elapsed then
    (true, fun s =>
     mkState (if status_eqb s.(st_status) Cooldown then Working else s.(st_status))
       s.(tasks) s.(logs) s.(currentTaskIndex) 0 now
       s.(nextAllowedQueryTime) s.(finalOutput) s.(agentPrompts))
  else if Qle_bool (inject_Z 80) (percentageUsed ref.(tokenUsage) cfg.(maxTokens)) then
    let waitTime := pms - elapsed in
    (false, fun s =>
     mkState Cooldown s.(tasks) s.(logs) s.(currentTaskIndex) s.(tokenUsage)
       s.(windowStartTime) (now + waitTime) s.(finalOutput) s.(agentPrompts))
  else (true, fun s => s).

(** One tick of the cooldown / auto-resume interval (100 ms), which only
    runs while the status is [cooldown] or [auto-paused]. *)
Definition cooldownTick (now : Z) (s : AppState) : AppState :=
  let remaining := Z.max 0 (s.(nextAllowedQueryTime) - now) in
  if remaining <=? 0 then
    if negb (status_eqb s.(st_status) Paused) then
      mkState Working s.(tasks) s.(logs) s.(currentTaskIndex) s.(tokenUsage)
        now s.(nextAllowedQueryTime) s.(finalOutput) s.(agentPrompts)
    else s
  else s.

(* ------------------------------------------------------------------ *)
(** ** String primitives used by the service code *)

(** [s.includes(sub)]. *)
Fixpoint includes (s sub : string) : bool :=
  String.prefix sub s ||
  match s with
  | EmptyString => false
  | String _ s' => includes s' sub
  end.

(** [s.toLowerCase()] on code units U+0000..U+00FF: [A-Z] and the Latin-1
    capitals U+00C0..U+00DE (except U+00D7) move up by 32. *)
Definition lower_ascii (c : ascii) : ascii :=
  let n := nat_of_ascii c in
  if ((65 <=? n)%nat && (n <=? 90)%nat)
     || ((192 <=? n)%nat && (n <=? 222)%nat && negb (n =? 215)%nat)
  then ascii_of_nat (n + 32) else c.

Fixpoint toLowerCase (s : string) : string :=
  match s with
  | EmptyString => EmptyString
  | String c s' => String (lower_ascii c) (toLowerCase s')
  end.

(** White space removed by [trim]: the JavaScript WhiteSpace and
    LineTerminator code units in U+0000..U+00FF, that is tab, LF, VT, FF,
    CR, space and no-break space (U+00A0). *)
Definition is_ws (c : ascii) : bool :=
  let n := nat_of_ascii c in
  ((9 <=? n)%nat && (n <=? 13)%nat) || (n =? 32)%nat || (n =? 160)%nat.

Fixpoint trim_start (s : string) : string :=
  match s with
  | String c s' => if is_ws c then trim_start s' else s
  | EmptyString => EmptyString
  end.

Definition string_rev (s : string) : string :=
  string_of_list_ascii (rev (list_ascii_of_string s)).

Definition trim (s : string) : string :=
  string_rev (trim_start (string_rev (trim_start s))).

(** [s.split(",")]: splitting on one character. *)
Fixpoint split_on (sep : ascii) (s : string) : list string :=
  match s with
  | EmptyString => [EmptyString]
  | String c s' =>
      if Ascii.eqb c sep then EmptyString :: split_on sep s'
      else match split_on sep s' with
           | w :: ws => String c w :: ws
           | [] => [String c EmptyString]
           end
  end.

(** JS truthiness of a string: [""] is falsy. *)
Definition truthy (s : string) : bool := negb (String.eqb s "").

(** [a || b] on strings. *)
Definition or_str (a : string) (b : string) : string := if truthy a then a else b.

(** [x || d] on an optional string ([undefined] is [None]). *)
Definition or_opt_str (a : option string) (d : string) : string :=
  match a with Some s => or_str s d | None => d end.

(** [x || d] on an optional number ([undefined] and [0] are falsy). *)
Definition or_opt_Z (a : option Z) (d : Z) : Z :=
  match a with Some n => if Z.eqb n 0 then d else n | None => d end.

(* ------------------------------------------------------------------ *)
(** ** Model gateway ([generateContentWithFallback]) *)

(** A thrown JS error value: its [status] and [code] properties, its
    [message], its [JSON.stringify] and its [String(...)] conversion. *)
Record JsError := mkErr {
  err_status : option Z;
  err_code : option Z;
  err_message : string;
  err_json : string;
  err_string : string
}.

(** [new Error(msg)]. *)
Definition newError (msg : string) : JsError :=
  mkErr None None msg "{}" ("Error: " +:+ msg).

Record Candidate := mkCandidate {
  finishReason : string;
  groundingUris : list (option string)  (** [chunk.web?.uri] of each grounding chunk *)
}.

Record Response := mkResponse {
  resp_text : option string;
  candidates : list Candidate;
  totalTokenCount : option Z
}.

(** What [ai.models.generateContent(params)] does with one API key. *)
Inductive Attempt :=
  | AttemptOk (r : Response)
  | AttemptThrow (e : JsError).

(** Result of one logical call through the gateway. *)
Inductive GwResult :=
  | GwOk (r : Response)
  | GwErr (e : JsError).

(** The safety / recitation check made inside the [try] block. *)
Definition blockedReason (r : Response) : option string :=
  if negb (truthy (default "" r.(resp_text))) then
    match r.(candidates) with
    | c :: _ =>
        if String.eqb c.(finishReason) "SAFETY" || String.eqb c.(finishReason) "RECITATION"
        then Some c.(finishReason) else None
    | [] => None
    end
  else None.

(** The classification made in the [catch] block. *)
Definition err_status_num (e : JsError) : Z :=
  or_opt_Z e.(err_status) (or_opt_Z e.(err_code) 500).

Definition err_text (e : JsError) : string := or_str e.(err_message) e.(err_json).

Definition isGlobalQuotaExhausted (e : JsError) : bool :=
  includes (err_text e) "limit: 0" ||
  includes (err_text e) "GenerateRequestsPerDayPerProjectPerModel-FreeTier".

Definition isQuota (e : JsError) : bool :=
  Z.eqb (err_status_num e) 429 || includes (err_text e) "429" ||
  includes (toLowerCase (err_text e)) "quota".

Definition isServer (e : JsError) : bool :=
  (500 <=? err_status_num e) && (err_status_num e <? 600).

Definition exhaustedError : JsError :=
  newError "All API keys exhausted or service unavailable.".

(** The body of the [try] block for one key: the response, or the error
    thrown (by the call itself or by the safety / recitation check). *)
Definition tryKey (a : Attempt) : Response + JsError :=
  match a with
  | AttemptOk r =>
      match blockedReason r with
      | Some reason => inr (newError ("Content generation blocked: " +:+ reason))
      | None => inl r
      end
  | AttemptThrow e => inr e
  end.

(** The [for (const apiKey of executionOrder)] loop. It returns the keys
    tried, in order, and the outcome of the logical call. *)
Fixpoint fallbackLoop (attempt : string -> Attempt) (keys : list string)
    (lastError : option JsError) : list string * GwResult :=
  match keys with
  | [] => ([], GwErr (match lastError with Some e => e | None => exhaustedError end))
  | apiKey :: rest =>
      match tryKey (attempt apiKey) with
      | inl r => ([apiKey], GwOk r)
      | inr e =>
          if isGlobalQuotaExhausted e then ([apiKey], GwErr e)
          else if isQuota e || isServer e then
            let '(tried, res) := fallbackLoop attempt rest (Some e) in
            (apiKey :: tried, res)
          else ([apiKey], GwErr e)
      end
  end.

(** An error after which the loop moves on to the next key. *)
Definition retriable (e : JsError) : bool :=
  negb (isGlobalQuotaExhausted e) && (isQuota e || isServer e).

(** Build-time environment ([import.meta.env]). *)
Record Env := mkEnv {
  VITE_GEMINI_API_KEY_ROLE : AgentRole -> option string;
  VITE_GEMINI_API_KEY : option string;
  VITE_GEMINI_API_KEYS : option string
}.

Definition parseKeyList (raw : option string) : list string :=
  match raw with
  | Some r => List.filter truthy (map trim (split_on "," r))
  | None => []
  end.

Definition sharedKeys (env : Env) : list string :=
  List.filter truthy
    (match env.(VITE_GEMINI_API_KEY) with Some k => [k] | None => [] end
     ++ parseKeyList env.(VITE_GEMINI_API_KEYS)).

Definition API_KEYS (env : Env) (r : AgentRole) : string :=
  or_opt_str (VITE_GEMINI_API_KEY_ROLE env r) (or_str (default "" (head (sharedKeys env))) "").

(** [Object.values(API_KEYS)]: insertion order of the object literal. *)
Definition api_key_order : list AgentRole :=
  [SUPERVISOR; CODER; WRITER; RESEARCHER; ANALYST; EDITOR].

(** [Array.from(new Set(xs))]: first occurrences, in order. *)
Fixpoint set_from_go (seen : list string) (xs : list string) : list string :=
  match xs with
  | [] => []
  | x :: t =>
      if existsb (String.eqb x) seen then set_from_go seen t
      else x :: set_from_go (x :: seen) t
  end.

Definition keyPool (env : Env) : list string :=
  set_from_go [] (List.filter truthy (map (API_KEYS env) api_key_order ++ sharedKeys env)).

(** The module throws at load time when the pool is empty. *)
Definition moduleLoads (env : Env) : Prop := keyPool env <> [].

(** [API_KEYS[preferredRole] || keyPool[0]] ([keyPool[0]] exists once the
    module has loaded). *)
Definition primaryKey (env : Env) (r : AgentRole) : string :=
  or_str (API_KEYS env r) (default "" (head (keyPool env))).

Definition backupKeys (env : Env) (r : AgentRole) : list string :=
  List.filter (fun k => negb (String.eqb k (primaryKey env r))) (keyPool env).

Definition executionOrder (env : Env) (r : AgentRole) : list string :=
  primaryKey env r :: backupKeys env r.

Definition generateContentWithFallback (env : Env) (preferredRole : AgentRole)
    (attempt : string -> Attempt) : list string * GwResult :=
  fallbackLoop attempt (executionOrder env preferredRole) None.

(* ------------------------------------------------------------------ *)
(** ** Agent service functions and the orchestration step *)

Definition nl : string := String (ascii_of_nat 10) EmptyString.
Definition dq : string := String (ascii_of_nat 34) EmptyString.

(** [arr.join(sep)]. *)
Fixpoint join (sep : string) (xs : list string) : string :=
  match xs with
  | [] => ""
  | [x] => x
  | x :: t => x +:+ sep +:+ join sep t
  end.

(** [`${v}`] of an optional string ([undefined] prints as ["undefined"]). *)
Definition show_opt (v : option string) : string := default "undefined" v.

(** [prompts[role]] for a role's string value. *)
Definition prompt_of (prompts : AgentPrompts) (agent : string) : string :=
  show_opt (prompts !! agent).

(** A task as returned by a (re-)planning call: the fields read from it. *)
Record RawTask := mkRaw {
  rt_title : string;
  rt_description : string;
  rt_assignedAgent : string
}.

(** A JSON value that is not an array: [null], or an object, a number, a
    string or a boolean. *)
Inductive NonArray :=
  | NNull
  | NOther.

(** The value produced by [JSON.parse]: an array of task objects, or any
    other JSON value (on which [.map] throws a [TypeError]). *)
Inductive JsonVal :=
  | JArray (items : list RawTask)
  | JOther (v : NonArray).

(** The [TypeError] thrown by [x.map(...)] when [x] is not an array, with
    V8's message; [receiver] is the source text of [x]. *)
Definition mapTypeError (receiver : string) (v : NonArray) : JsError :=
  let msg := match v with
             | NNull => "Cannot read properties of null (reading 'map')"
             | NOther => receiver +:+ ".map is not a function"
             end in
  mkErr None None msg "{}" ("TypeError: " +:+ msg).

(** The time-stamped id [`task-${Date.now()}-${index}`]. *)
Definition task_id (now : Z) (index : nat) : string :=
  "task-" +:+ pretty now +:+ "-" +:+ pretty index.

Definition task_of_raw (now : Z) (index : nat) (t : RawTask) : Task :=
  mkTask (task_id now index) t.(rt_title) t.(rt_description) t.(rt_assignedAgent)
    Pending None None.

Definition raw_of_task (t : Task) : RawTask :=
  mkRaw t.(title) t.(description) t.(assignedAgent).

Definition addLog (agent : string) (message : string) (type : LogType)
    (s : AppState) : AppState :=
  set_logs (s.(logs) ++ [mkLog agent message type]) s.

Section Orchestrator.

(** [JSON.parse]: a parsed value, or a [SyntaxError]. *)
Variable JSON_parse : string -> JsError + JsonVal.

Record PlanResult := mkPlan { pr_tasks : list Task; pr_usage : Z; pr_prompt : string }.

(** [createSupervisorPlan]; [gw] is the gateway outcome of its call and
    [now] the [Date.now()] read after it. Errors are rethrown. *)
Definition createSupervisorPlan (userQuery : string) (prompts : AgentPrompts)
    (gw : GwResult) (now : Z) : JsError + PlanResult :=
  let systemInstruction := prompt_of prompts (role_name SUPERVISOR) in
  let fullPrompt := systemInstruction +:+ nl +:+ nl +:+ "User Request: " +:+ dq
    +:+ userQuery +:+ dq +:+ nl +:+ nl +:+ "Return a JSON array of tasks." in
  match gw with
  | GwErr e => inl e
  | GwOk response =>
      let jsonText := or_opt_str response.(resp_text) "[]" in
      match JSON_parse jsonText with
      | inl e => inl e
      | inr (JOther v) => inl (mapTypeError "tasksRaw" v)
      | inr (JArray tasksRaw) =>
          let usage := or_opt_Z response.(totalTokenCount) 0 in
          inr (mkPlan (imap (task_of_raw now) tasksRaw) usage fullPrompt)
      end
  end.

(** What [updateSupervisorPlan] returns in [tasks]: the parsed JSON value,
    or (on failure) the [remainingTasks] it was given. *)
Inductive ReplanTasks :=
  | RArray (items : list RawTask)
  | RNotArray (v : NonArray).

Record ReplanResult := mkReplan { rp_tasks : ReplanTasks; rp_usage : Z; rp_prompt : string }.

Definition completed_line (t : Task) : string :=
  "- [" +:+ t.(assignedAgent) +:+ "] " +:+ t.(title) +:+ ": " +:+
  match t.(result) with
  | Some r => if truthy r then substring 0 300 r +:+ "..." else "Done"
  | None => "Done"
  end.

Definition remaining_line (t : Task) : string :=
  "- " +:+ t.(title) +:+ " (" +:+ t.(assignedAgent) +:+ ")".

(** [updateSupervisorPlan]: never throws; on any failure of the call or of
    [JSON.parse] it returns the remaining tasks and zero usage. *)
Definition updateSupervisorPlan (userQuery : string) (completedTasks remainingTasks : list Task)
    (prompts : AgentPrompts) (gw : GwResult) : ReplanResult :=
  let maxNewTasks := 5%nat in
  let systemInstruction := prompt_of prompts (role_name SUPERVISOR) in
  let fullPrompt := systemInstruction +:+ nl +:+ "    " +:+ nl
    +:+ "    Original Objective: " +:+ dq +:+ userQuery +:+ dq +:+ nl +:+ nl
    +:+ "    Progress so far (Completed Tasks):" +:+ nl
    +:+ "    " +:+ join nl (map completed_line completedTasks) +:+ nl +:+ nl
    +:+ "    Current Remaining Plan:" +:+ nl
    +:+ "    " +:+ join nl (map remaining_line remainingTasks) +:+ nl +:+ nl
    +:+ "    Your Task:" +:+ nl
    +:+ "    Evaluate the progress. " +:+ nl
    +:+ "    1. If findings require new tasks, add them to the remaining list." +:+ nl
    +:+ "    2. If the current plan is valid, return it as is." +:+ nl
    +:+ "    3. You can reorder tasks." +:+ nl +:+ nl
    +:+ "    CRITICAL SCOPE CONSTRAINTS:" +:+ nl
    +:+ "    - You are strictly limited to adding a MAXIMUM of " +:+ pretty maxNewTasks
    +:+ " new tasks." +:+ nl
    +:+ "    - Do NOT expand the scope unless absolutely critical for the objective." +:+ nl
    +:+ "    - Prefer completing the current plan over adding 'nice-to-have' steps." +:+ nl +:+ nl
    +:+ "    Return a JSON array of the *remaining* tasks (do not include completed ones)." in
  let fallback := mkReplan (RArray (map raw_of_task remainingTasks)) 0 fullPrompt in
  match gw with
  | GwErr _ => fallback
  | GwOk response =>
      let jsonText := or_opt_str response.(resp_text) "[]" in
      match JSON_parse jsonText with
      | inl _ => fallback
      | inr v =>
          let usage := or_opt_Z response.(totalTokenCount) 0 in
          mkReplan (match v with JArray l => RArray l | JOther v' => RNotArray v' end) usage fullPrompt
      end
  end.

Record TaskResult := mkTaskResult {
  tr_text : string; tr_sources : list string; tr_usage : Z; tr_prompt : string
}.

Definition sources_of (r : Response) : list string :=
  match r.(candidates) with
  | c :: _ => omap (fun u => u) c.(groundingUris)
  | [] => []
  end.

(** [executeAgentTask]: errors are rethrown. *)
Definition executeAgentTask (agent : string) (task : Task) (context : string)
    (prompts : AgentPrompts) (gw : GwResult) : JsError + TaskResult :=
  let systemInstruction := prompt_of prompts agent in
  let fullPrompt := systemInstruction +:+ nl +:+ "    " +:+ nl
    +:+ "    Your Task: " +:+ task.(title) +:+ nl
    +:+ "    Details: " +:+ task.(description) +:+ nl +:+ nl
    +:+ "    Context (Results from previous steps):" +:+ nl
    +:+ "    " +:+ or_str context "No previous context. You are starting the workflow."
    +:+ nl +:+ "    " in
  match gw with
  | GwErr e => inl e
  | GwOk response =>
      let outputText := or_opt_str response.(resp_text)
                          "Task completed, but no text output generated." in
      let usage := or_opt_Z response.(totalTokenCount) 0 in
      inr (mkTaskResult outputText (sources_of response) usage fullPrompt)
  end.

Record FinalResult := mkFinal { fr_text : string; fr_usage : Z; fr_prompt : string }.

(** [superviseFinalOutput]: never throws; a failed call yields an error
    message as text and zero usage. *)
Definition superviseFinalOutput (context : string) (prompts : AgentPrompts)
    (gw : GwResult) : FinalResult :=
  let systemInstruction := prompt_of prompts (role_name SUPERVISOR) in
  let fullPrompt := systemInstruction +:+ nl +:+ "     " +:+ nl
    +:+ "     The team has finished all tasks." +:+ nl
    +:+ "     Here is the accumulated work logs:" +:+ nl
    +:+ "     " +:+ context +:+ nl +:+ nl
    +:+ "     Please compile this into a final, polished output for the user. " +:+ nl
    +:+ "     Format it nicely with Markdown." in
  match gw with
  | GwErr e => mkFinal ("Error generating final output: " +:+ e.(err_string)) 0 fullPrompt
  | GwOk response =>
      let usage := or_opt_Z response.(totalTokenCount) 0 in
      mkFinal (or_opt_str response.(resp_text) "Final output generation failed.") usage fullPrompt
  end.

(** The [Date.now()] values read by one step: before its first model call,
    after its first call, and after its second (re-planning) call. *)
Record StepTimes := mkTimes { t_start : Z; t_mid : Z; t_end : Z }.

(** The [catch (err)] block of [processNextStep]. *)
Definition stepCatch (err : JsError) (s : AppState) : AppState :=
  let errMsg := err.(err_message) in
  let isQuotaErr :=
    match err.(err_status) with Some 429 => true | _ => false end
    || includes errMsg "429" || includes errMsg "quota" in
  if isQuotaErr then
    set_status Paused (addLog (role_name SUPERVISOR)
      "CRITICAL: Rate limit exceeded. Pausing mission. Resume when quota resets." LError s)
  else
    set_status Paused (addLog (role_name SUPERVISOR) ("Error: " +:+ errMsg) LError s).

Definition markInProgress (taskIndex : nat) (ts : list Task) : list Task :=
  imap (fun i t => if Nat.eqb i taskIndex
                   then mkTask t.(id) t.(title) t.(description) t.(assignedAgent)
                          InProgress t.(result) t.(usage)
                   else t) ts.

Definition markCompleted (taskIndex : nat) (r : TaskResult) (ts : list Task) : list Task :=
  imap (fun i t => if Nat.eqb i taskIndex
                   then mkTask t.(id) t.(title) t.(description) t.(assignedAgent)
                          Completed (Some r.(tr_text)) (Some r.(tr_usage))
                   else t) ts.

(** The final [setState] of a planning step. *)
Definition commitPlan (ts : list Task) (u : Z) (s : AppState) : AppState :=
  mkState Working ts s.(logs) 0 (s.(tokenUsage) + u)
    s.(windowStartTime) s.(nextAllowedQueryTime) s.(finalOutput) s.(agentPrompts).

(** The final [setState] of a synthesis step. *)
Definition commitFinal (out : string) (u : Z) (s : AppState) : AppState :=
  mkState CompletedS s.(tasks) s.(logs) s.(currentTaskIndex) (s.(tokenUsage) + u)
    s.(windowStartTime) s.(nextAllowedQueryTime) (Some out) s.(agentPrompts).

(** The final [setState] of a task-execution step. *)
Definition commitTask (nextTasks : list Task) (u : Z) (s : AppState) : AppState :=
  mkState s.(st_status) nextTasks s.(logs) (S s.(currentTaskIndex)) (s.(tokenUsage) + u)
    s.(windowStartTime) s.(nextAllowedQueryTime) s.(finalOutput) s.(agentPrompts).

Definition final_context (ts : list Task) : string :=
  join (nl +:+ nl) (map (fun t => "Task: " +:+ t.(title) +:+ nl +:+ "Result: "
                                   +:+ show_opt t.(result)) ts).

Definition task_context (ts : list Task) : string :=
  join (nl +:+ nl) (map (fun t => "[Completed Task: " +:+ t.(title) +:+ "]" +:+ nl
                                   +:+ "Result: " +:+ show_opt t.(result)) ts).

(** The re-planning block: from the state after the task's logs, returns
    the thrown error with the state reached when it is thrown, or the next
    task list, the extra usage and the state. *)
Definition replanBlock (cfg : RateLimitConfig) (query : string) (tm : StepTimes)
    (gw2 : GwResult) (prompts : AgentPrompts) (taskIndex : nat)
    (updated : list Task) (s : AppState) : (JsError * AppState) + (list Task * Z * AppState) :=
  let remainingCount := (length updated - S taskIndex)%nat in
  if (0 <? remainingCount)%nat then
    let '(ok, upd) := checkRateLimit cfg tm.(t_mid) s in
    let s := upd s in
    if ok then
      let s := addLog (role_name SUPERVISOR)
                 "Evaluating progress and checking if plan needs updates..." LPlan s in
      let completedTasks := take (S taskIndex) updated in
      let remainingTasks := drop (S taskIndex) updated in
      let replanResult := updateSupervisorPlan query completedTasks remainingTasks prompts gw2 in
      let additionalUsage := replanResult.(rp_usage) in
      let s := addLog (role_name SUPERVISOR)
                 ("[SYSTEM] Re-planning Prompt:" +:+ nl +:+ replanResult.(rp_prompt)) LInfo s in
      match replanResult.(rp_tasks) with
      | RNotArray v => inl (mapTypeError "replanResult.tasks" v, s)
      | RArray raws =>
          let newRemainingTasks := imap (task_of_raw tm.(t_end)) raws in
          let s := addLog (role_name SUPERVISOR)
                     ("Plan updated. Remaining tasks: " +:+ pretty (length newRemainingTasks)
                      +:+ " (Used " +:+ pretty replanResult.(rp_usage) +:+ " tokens)") LPlan s in
          inr (completedTasks ++ newRemainingTasks, additionalUsage, s)
      end
    else inr (updated, 0, s)
  else inr (updated, 0, s).

(** [processNextStep]. [current] is [stateRef.current] when the step
    starts (also the latest state then); [gw1] is the outcome of the step's
    first model call and [gw2] of the re-planning call. *)
Definition processNextStep (cfg : RateLimitConfig) (query : string) (tm : StepTimes)
    (gw1 gw2 : GwResult) (current : AppState) : AppState :=
  if negb (status_eqb current.(st_status) Working)
     && negb (status_eqb current.(st_status) Planning) then current else
  let '(ok, upd) := checkRateLimit cfg tm.(t_start) current in
  let s := upd current in
  if negb ok then s else
  if status_eqb current.(st_status) Planning then
    let s := addLog (role_name SUPERVISOR)
               "Thinking... Analyzing request to build granular plan." LPlan s in
    match createSupervisorPlan query current.(agentPrompts) gw1 tm.(t_mid) with
    | inl err => stepCatch err s
    | inr (mkPlan ts u prompt) =>
        let s := addLog (role_name SUPERVISOR)
                   ("[SYSTEM] Supervisor Planning Prompt:" +:+ nl +:+ prompt) LInfo s in
        let s := commitPlan ts u s in
        addLog (role_name SUPERVISOR)
          ("Plan created with " +:+ pretty (length ts) +:+ " tasks. (Used "
           +:+ pretty u +:+ " tokens)") LPlan s
    end
  else
  let taskIndex := current.(currentTaskIndex) in
  if (length current.(tasks) <=? taskIndex)%nat then
    let s := addLog (role_name SUPERVISOR)
               "All tasks completed. Compiling final report..." LInfo s in
    let '(ok2, upd2) := checkRateLimit cfg tm.(t_start) current in
    let s := upd2 s in
    if negb ok2 then s else
    let context := final_context current.(tasks) in
    let '(mkFinal out u prompt) := superviseFinalOutput context current.(agentPrompts) gw1 in
    let s := addLog (role_name SUPERVISOR)
               ("[SYSTEM] Final Synthesis Prompt:" +:+ nl +:+ prompt) LInfo s in
    let s := commitFinal out u s in
    addLog (role_name SUPERVISOR)
      ("Final output delivered. (Used " +:+ pretty u +:+ " tokens)") LResult s
  else
  match current.(tasks) !! taskIndex with
  | None => s
  | Some task =>
    let s := set_tasks (markInProgress taskIndex s.(tasks)) s in
    let s := addLog (role_name SUPERVISOR)
               ("Starting Task " +:+ pretty (S taskIndex) +:+ "/" +:+ pretty (length current.(tasks))
                +:+ ": " +:+ task.(title) +:+ " (" +:+ task.(assignedAgent) +:+ ")") LAction s in
    let context := task_context (take taskIndex current.(tasks)) in
    match executeAgentTask task.(assignedAgent) task context current.(agentPrompts) gw1 with
    | inl err => stepCatch err s
    | inr result =>
        let s := addLog task.(assignedAgent)
                   ("[SYSTEM] Agent Prompt:" +:+ nl +:+ result.(tr_prompt)) LInfo s in
        let s := addLog task.(assignedAgent)
                   ("[SYSTEM] Agent Output:" +:+ nl +:+ result.(tr_text)) LInfo s in
        let s := addLog task.(assignedAgent)
                   ("Task Complete. (Used " +:+ pretty result.(tr_usage) +:+ " tokens)") LResult s in
        let updatedTasksWithCurrentResult := markCompleted taskIndex result current.(tasks) in
        match replanBlock cfg query tm gw2 current.(agentPrompts) taskIndex
                updatedTasksWithCurrentResult s with
        | inl (err, s) => stepCatch err s
        | inr (nextTasks, additionalUsage, s) =>
            commitTask nextTasks (result.(tr_usage) + additionalUsage) s
        end
    end
  end.

End Orchestrator.

(* ------------------------------------------------------------------ *)
(** ** Defaults, handlers and session loading *)

(** [DEFAULT_AGENT_PROMPTS] ([constants.ts]). *)
Definition DEFAULT_AGENT_PROMPTS : AgentPrompts :=
  list_to_map [
    (role_name SUPERVISOR, "You are an expert Supervisor Agent. 
Your goal is to break down the user's complex request into a highly detailed, granular list of sequential tasks.

Rules:
1. Break the workflow into very small, granular steps. 
2. You MUST generate between 10 and 50 tasks depending on complexity. 
3. The first task is usually for the Researcher.
4. Assign the most appropriate agent for each step.
5. The tasks must be strictly sequential.
6. Provide a clear, actionable description for each task.
7. CRITICAL CONSTRAINT: You are an AI model. You CANNOT perform physical experiments, make phone calls, conduct primary field research, or interact with the physical world. Limit tasks to digital research, data analysis, coding, and writing.");
    (role_name RESEARCHER, "You are a Researcher Agent.
Your goal is to find accurate, up-to-date information using the Google Search tool.
Verify sources where possible. Provide comprehensive findings.");
    (role_name ANALYST, "You are an Analyst Agent.
Your goal is to process data, identify patterns, and derive insights from the provided context.
Be logical, objective, and detailed.");
    (role_name WRITER, "You are a Writer Agent.
Your goal is to draft high-quality content based on the research and analysis provided.
Adapt your tone to the requirement.");
    (role_name EDITOR, "You are an Editor Agent.
Your goal is to refine, polish, and structure content.
Check for clarity, grammar, and flow.");
    (role_name CODER, "You are a Coder Agent.
Your goal is to write clean, efficient, and well-commented code.
Explain your logic.")
  ].

(** [INITIAL_STATE]; [loadTime] is the [Date.now()] of module load. *)
Definition INITIAL_STATE (loadTime : Z) : AppState :=
  mkState Idle [] [] 0 0 loadTime 0 None DEFAULT_AGENT_PROMPTS.

(** [handleStart] (only when the query is non-blank). *)
Definition handleStart (query : string) (now : Z) (loadTime : Z) (state : AppState) : AppState :=
  if negb (truthy (trim query)) then state else
  let i := INITIAL_STATE loadTime in
  mkState Planning i.(tasks) i.(logs) i.(currentTaskIndex) i.(tokenUsage) now
    i.(nextAllowedQueryTime) i.(finalOutput) state.(agentPrompts).

(** [handleRestart] (after the user confirms). *)
Definition handleRestart (now : Z) (loadTime : Z) (state : AppState) : AppState :=
  let i := INITIAL_STATE loadTime in
  mkState Planning i.(tasks) i.(logs) i.(currentTaskIndex) i.(tokenUsage) now
    i.(nextAllowedQueryTime) i.(finalOutput) state.(agentPrompts).

Definition handlePause (cfg : RateLimitConfig) (now : Z) (s : AppState) : AppState :=
  if 0 <? cfg.(autoResumeMinutes) then
    let delayMs := cfg.(autoResumeMinutes) * 60 * 1000 in
    mkState AutoPaused s.(tasks) s.(logs) s.(currentTaskIndex) s.(tokenUsage)
      s.(windowStartTime) (now + delayMs) s.(finalOutput) s.(agentPrompts)
  else set_status Paused s.

Definition handleStopTimer (s : AppState) : AppState := set_status Paused s.

Definition handleResume (s : AppState) : AppState :=
  set_status (if (0 <? length s.(tasks))%nat then Working else Planning) s.

Definition updatePrompt (role : AgentRole) (prompt : string) (s : AppState) : AppState :=
  mkState s.(st_status) s.(tasks) s.(logs) s.(currentTaskIndex) s.(tokenUsage)
    s.(windowStartTime) s.(nextAllowedQueryTime) s.(finalOutput)
    (<[role_name role := prompt]> s.(agentPrompts)).

(** A [SavedSession.state] as read back with [JSON.parse]: every property
    may be absent ([None]); [agentPrompts] is whatever object was stored. *)
Record LoadedState := mkLoaded {
  ld_status : option Status;
  ld_tasks : option (list Task);
  ld_logs : option (list LogEntry);
  ld_currentTaskIndex : option nat;
  ld_tokenUsage : option Z;
  ld_windowStartTime : option Z;
  ld_nextAllowedQueryTime : option Z;
  ld_finalOutput : option (option string);
  ld_agentPrompts : option AgentPrompts
}.

(** [{ ...INITIAL_STATE, ...saved.state, agentPrompts: saved.state.agentPrompts
    || INITIAL_STATE.agentPrompts, status: 'paused' }], the merge made both
    by the autosave resume on mount and by [handleLoadSession]. *)
Definition mergeLoadedState (loadTime : Z) (ld : LoadedState) : AppState :=
  let i := INITIAL_STATE loadTime in
  mkState Paused
    (default i.(tasks) ld.(ld_tasks))
    (default i.(logs) ld.(ld_logs))
    (default i.(currentTaskIndex) ld.(ld_currentTaskIndex))
    (default i.(tokenUsage) ld.(ld_tokenUsage))
    (default i.(windowStartTime) ld.(ld_windowStartTime))
    (default i.(nextAllowedQueryTime) ld.(ld_nextAllowedQueryTime))
    (default i.(finalOutput) ld.(ld_finalOutput))
    (match ld.(ld_agentPrompts) with Some p => p | None => i.(agentPrompts) end).

Definition handleLoadSession (loadTime : Z) (ld : LoadedState) : AppState :=
  mergeLoadedState loadTime ld.

(** The resume of an interrupted autosave on mount (when the user confirms
    and the saved status is neither [idle] nor [completed]). *)
Definition resumeAutosave (loadTime : Z) (ld : LoadedState) (s : AppState) : AppState :=
  match ld.(ld_status) with
  | Some Idle | Some CompletedS => s
  | _ => mergeLoadedState loadTime ld
  end.

(** [agentPrompts] is a total map from the [Role] set to strings. *)
Definition prompts_total (p : AgentPrompts) : Prop :=
  forall r : AgentRole, is_Some (p !! role_name r).

(** A re-planning call that fails: the gateway call throws, or its text is
    not valid JSON. *)
Definition replanCallFails (JSON_parse : string -> JsError + JsonVal) (gw : GwResult) : bool :=
  match gw with
  | GwErr _ => true
  | GwOk r => match JSON_parse (or_opt_str r.(resp_text) "[]") with inl _ => true | inr _ => false end
  end.

(* ------------------------------------------------------------------ *)
(** ** Further handlers, autosave and view values ([App.tsx]) *)

Definition resetPrompts (s : AppState) : AppState :=
  mkState s.(st_status) s.(tasks) s.(logs) s.(currentTaskIndex) s.(tokenUsage)
    s.(windowStartTime) s.(nextAllowedQueryTime) s.(finalOutput) DEFAULT_AGENT_PROMPTS.

(** The statuses the [beforeunload] handler saves. *)
Definition savedOnUnload (st : Status) : bool :=
  status_eqb st Working || status_eqb st Planning || status_eqb st Cooldown
  || status_eqb st AutoPaused.

(** The debounced autosave effect returns early only on [idle]. *)
Definition debouncedAutosave (st : Status) : bool := negb (status_eqb st Idle).

(** [JSON.parse(JSON.stringify(state))] of a state the app wrote: every
    property is present ([finalOutput: null] reads back as [null]). *)
Definition loaded_of_state (s : AppState) : LoadedState :=
  mkLoaded (Some s.(st_status)) (Some s.(tasks)) (Some s.(logs)) (Some s.(currentTaskIndex))
    (Some s.(tokenUsage)) (Some s.(windowStartTime)) (Some s.(nextAllowedQueryTime))
    (Some s.(finalOutput)) (Some s.(agentPrompts)).

Definition isRunning (st : Status) : bool := status_eqb st Working || status_eqb st Planning.
Definition isPaused (st : Status) : bool := status_eqb st Paused || status_eqb st AutoPaused.
Definition isIdle (st : Status) : bool :=
  status_eqb st Idle || status_eqb st CompletedS || status_eqb st ErrorS.
Definition isConfigEnabled (st : Status) : bool := isIdle st || isPaused st.
Definition isTimerActive (st : Status) : bool :=
  status_eqb st Cooldown || status_eqb st AutoPaused.

(** [n.toString().padStart(2, '0')]. *)
Definition padStart2 (s : string) : string :=
  match String.length s with
  | 0%nat => "00"
  | 1%nat => "0" +:+ s
  | _ => s
  end.

(** [formatTime]; [ms] is an integer number of milliseconds.
    [Math.ceil(ms / 1000)] is [- ((- ms) / 1000)] with floor division,
    [Math.floor(seconds / 60)] is [seconds / 60] and [seconds % 60] is
    [Z.rem seconds 60]. *)
Definition formatTime (ms : Z) : string :=
  let seconds := - ((- ms) / 1000) in
  let m := seconds / 60 in
  let s := Z.rem seconds 60 in
  pretty m +:+ ":" +:+ padStart2 (pretty s).

(* ------------------------------------------------------------------ *)
(** ** Rate-limit settings panel ([RateLimitConfigPanel]) *)

Definition DEFAULT_RATE_LIMIT : RateLimitConfig := mkConfig 100000 1 Minutes 0.

(** One [onChange] of the panel: the input edited and its new text. *)
Inductive ConfigEdit :=
  | EditMaxTokens (v : string)
  | EditPeriodValue (v : string)
  | EditPeriodUnit (u : PeriodUnit)
  | EditAutoResume (v : string).

Section ConfigPanel.

(** [parseInt]: an integer, or [NaN] ([None]). *)
Variable parseInt : string -> option Z.

Definition applyConfigEdit (e : ConfigEdit) (c : RateLimitConfig) : RateLimitConfig :=
  match e with
  | EditMaxTokens v =>
      mkConfig (or_opt_Z (parseInt v) 1000) c.(periodValue) c.(periodUnit) c.(autoResumeMinutes)
  | EditPeriodValue v =>
      mkConfig c.(maxTokens) (or_opt_Z (parseInt v) 1) c.(periodUnit) c.(autoResumeMinutes)
  | EditPeriodUnit u =>
      mkConfig c.(maxTokens) c.(periodValue) u c.(autoResumeMinutes)
  | EditAutoResume v =>
      mkConfig c.(maxTokens) c.(periodValue) c.(periodUnit) (Z.max 0 (or_opt_Z (parseInt v) 0))
  end.

Definition applyConfigEdits (es : list ConfigEdit) (c : RateLimitConfig) : RateLimitConfig :=
  fold_left (fun c e => applyConfigEdit e c) es c.

End ConfigPanel.

(* ------------------------------------------------------------------ *)
(** ** Session history ([services/storageService.ts]) *)

Record SavedSession := mkSession {
  ss_id : string;
  ss_timestamp : Z;
  ss_query : string;
  ss_config : RateLimitConfig;
  ss_state : AppState
}.

(** [localStorage]: key to stored text. *)
Abbreviation LocalStorage := (gmap string string).

Definition STORAGE_KEY : string := "orchestrator_history_v1".

(** The value [JSON.parse] gives for the history text: an array of
    sessions (what the app writes there), a JSON string, or another
    non-array value ([null], an object, a number or a boolean: not
    iterable). The elements of a stored array are taken to be sessions. *)
Inductive HistoryVal :=
  | HArray (l : list SavedSession)
  | HString (str : string)
  | HNonIterable.

(** [[...str]]: the characters of a string, one string each. *)
Definition spread_chars (str : string) : list string :=
  map (fun c => String c EmptyString) (list_ascii_of_string str).

Section Storage.

(** [JSON.stringify] of a session array, [JSON.stringify] of an array made
    of a session followed by one-character strings, and [JSON.parse] of the
    history text (a value, or the [SyntaxError] thrown). *)
Variable history_stringify : list SavedSession -> string.
Variable history_stringify_chars : SavedSession -> list string -> string.
Variable history_parse : string -> JsError + HistoryVal.

(** [getSessions]: [raw ? JSON.parse(raw) : []], and [[]] when the parse
    throws. *)
Definition getSessions (ls : LocalStorage) : HistoryVal :=
  match ls !! STORAGE_KEY with
  | Some raw =>
      if truthy raw then match history_parse raw with inl _ => HArray [] | inr v => v end
      else HArray []
  | None => HArray []
  end.

(** [saveSession]; [now1] and [now2] are its two [Date.now()] reads. It
    returns the new session and the storage after [setItem], or [None] when
    it throws: spreading a non-iterable history is a [TypeError]. A string
    history is spread into its characters. *)
Definition saveSession (state : AppState) (query : string) (config : RateLimitConfig)
    (now1 now2 : Z) (ls : LocalStorage) : option (SavedSession * LocalStorage) :=
  let sessions := getSessions ls in
  let id := "session-" +:+ pretty now1 in
  let newSession := mkSession id now2 query config state in
  match sessions with
  | HArray l =>
      let updatedSessions := take 10 (newSession :: l) in
      Some (newSession, <[STORAGE_KEY := history_stringify updatedSessions]> ls)
  | HString str =>
      Some (newSession, <[STORAGE_KEY := history_stringify_chars newSession
                                           (take 9 (spread_chars str))]> ls)
  | HNonIterable => None
  end.

(** [deleteSession]: the remaining sessions and the storage after
    [setItem], or [None] when [.filter] throws on a non-array history. *)
Definition deleteSession (id : string) (ls : LocalStorage)
  : option (list SavedSession * LocalStorage) :=
  match getSessions ls with
  | HArray l =>
      let sessions := List.filter (fun s => negb (String.eqb s.(ss_id) id)) l in
      Some (sessions, <[STORAGE_KEY := history_stringify sessions]> ls)
  | _ => None
  end.

(** A session list whose stored text reads back as itself. *)
Definition round_trips (l : list SavedSession) : Prop :=
  truthy (history_stringify l) = true /\ history_parse (history_stringify l) = inr (HArray l).

End Storage.

(* ------------------------------------------------------------------ *)
(** ** API key editor ([ApiKeyConfigPanel]) *)

(** The effect run on opening: pad with [''] up to five entries and keep
    the first five. *)
Definition openKeys (apiKeys : list string) : list string :=
  take 5 (apiKeys ++ replicate (5 - length apiKeys) "").

(** [handleSave]: trimmed keys, empty ones dropped. *)
Definition handleSaveKeys (keys : list string) : list string :=
  List.filter (fun k => (0 <? String.length k)%nat) (map trim keys).

(* ------------------------------------------------------------------ *)
(** ** Reasoning aids *)

(** [trim_start] on the character list of a string. *)
Fixpoint dropw (l : list ascii) : list ascii :=
  match l with
  | [] => []
  | c :: t => if is_ws c then dropw t else l
  end.

(** The first character, if any, is not white space. *)
Definition no_ws_head (l : list ascii) : Prop :=
  forall c, hd_error l = Some c -> is_ws c = false.

(** What the configuration panel keeps: a non-zero token budget (the divisor
    of the usage percentage), a non-zero period and a non-negative
    auto-resume delay. *)
Definition config_ok (c : RateLimitConfig) : Prop :=
  maxTokens c <> 0 /\ periodValue c <> 0 /\ 0 <= autoResumeMinutes c.

(* ================================================================== *)
(** * Example inputs *)

Definition cfg_1000_per_minute : RateLimitConfig := mkConfig 1000 1 Minutes 0.

Definition task_a : Task := mkTask "task-1-0" "Research" "find facts" "Researcher" Pending None None.
Definition task_b : Task := mkTask "task-1-1" "Write" "draft report" "Writer" Pending None None.
Definition task_c : Task := mkTask "task-1-2" "Edit" "polish report" "Editor" Pending None None.

(** A state that entered cooldown after a call reporting 850 tokens in a
    window that started at time 0. *)
Definition cooling_state : AppState :=
  mkState Cooldown [task_a; task_b] [] 0 850 0 60000 None DEFAULT_AGENT_PROMPTS.

Definition parse_nothing : string -> JsError + JsonVal := fun _ => inl (newError "Unexpected token").

Definition ok_response : Response := mkResponse (Some "done") [] (Some 100).

(** Keys [A] (Supervisor's own key) and [B] (shared key). *)
Definition env_two_keys : Env :=
  mkEnv (fun r => match r with SUPERVISOR => Some "A" | _ => None end) (Some "B") None.

(** The call is blocked for safety with key [A] and would succeed with [B]. *)
Definition blocked_then_ok (apiKey : string) : Attempt :=
  if String.eqb apiKey "A"
  then AttemptOk (mkResponse None [mkCandidate "SAFETY" []] None)
  else AttemptOk ok_response.

(** A saved session whose [agentPrompts] object only has the Supervisor. *)
Definition loaded_partial : LoadedState :=
  mkLoaded (Some Working) (Some [task_a]) (Some []) (Some 0%nat) (Some 0) (Some 0)
    (Some 0) (Some None) (Some {[ "Supervisor" := "Plan carefully." ]}).

Definition retries (attempt : string -> Attempt) (k : string) : Prop :=
  exists e, tryKey (attempt k) = inr e /\ retriable e = true.

(** A working state with two pending tasks and no tokens used. *)
Definition two_task_state : AppState :=
  mkState Working [task_a; task_b] [] 0 0 0 0 None DEFAULT_AGENT_PROMPTS.

(** A gateway call that fails with an error carrying a message. *)
Definition failed_call : GwResult := GwErr (newError "Content generation blocked: SAFETY").

(** A state at the start of a mission, before the plan. *)
Definition planning_state : AppState :=
  mkState Planning [] [] 0 0 0 0 None DEFAULT_AGENT_PROMPTS.

(** A state with one pending task left. *)
Definition last_task_state : AppState :=
  mkState Working [task_a] [] 0 0 0 0 None DEFAULT_AGENT_PROMPTS.

(** [JSON.parse] returning a two-task plan, and returning a non-array. *)
Definition parse_plan : string -> JsError + JsonVal :=
  fun _ => inr (JArray [mkRaw "Research" "find facts" "Researcher"; mkRaw "Write" "draft report" "Writer"]).

Definition parse_object : string -> JsError + JsonVal := fun _ => inr (JOther NOther).

(** A budget of [-5] tokens, as [parseInt("-5") || 1000] gives. *)
Definition cfg_negative : RateLimitConfig := mkConfig (-5) 1 Minutes 0.

(** The session saved at time 5 (id) and 7 (timestamp). *)
Definition session_5 : SavedSession :=
  mkSession ("session-" +:+ pretty 5) 7 "q" cfg_1000_per_minute two_task_state.

(** The session saved at time 9 (id) and 11 (timestamp), after [session_5]. *)
Definition session_9 : SavedSession :=
  mkSession ("session-" +:+ pretty 9) 11 "r" cfg_1000_per_minute planning_state.

(** A history serialiser for the witnesses: the histories [[]],
    [[session_5]] and [[session_9; session_5]], and a stored object. *)
Definition history_stringify_ex (l : list SavedSession) : string :=
  match l with [] => "[]" | [_] => "[1]" | _ => "[2]" end.

Definition history_parse_ex (s : string) : JsError + HistoryVal :=
  if String.eqb s "[1]" then inr (HArray [session_5])
  else if String.eqb s "[2]" then inr (HArray [session_9; session_5])
  else if String.eqb s "{}" then inr HNonIterable else inr (HArray []).

Definition history_stringify_chars_ex (_ : SavedSession) (_ : list string) : string := "[3]".

(** [parseInt] on a few strings. *)
Definition parseInt_ex (s : string) : option Z :=
  if String.eqb s "-5" then Some (-5) else if String.eqb s "0" then Some 0 else None.

(* ================================================================== *)
(** * Properties *)

(* ------------------------------------------------------------------ *)
(** ** The rate limiter *)

Lemma checkRateLimit_deny (cfg : RateLimitConfig) (now : Z) (ref : AppState) :
  now - windowStartTime ref <= periodMs cfg ->
  (4 # 5 <= inject_Z (tokenUsage ref) / inject_Z (maxTokens cfg))%Q ->
  checkRateLimit cfg now ref =
    (false, fun s =>
     mkState Cooldown s.(tasks) s.(logs) s.(currentTaskIndex) s.(tokenUsage)
       s.(windowStartTime) (now + (periodMs cfg - (now - windowStartTime ref)))
       s.(finalOutput) s.(agentPrompts)).
Proof.
  intros Hel Hq. unfold checkRateLimit.
  replace (periodMs cfg <? now - windowStartTime ref) with false
    by (symmetry; apply Z.ltb_ge; lia).
  replace (Qle_bool (inject_Z 80) (percentageUsed (tokenUsage ref) (maxTokens cfg)))
    with true; [reflexivity|].
  symmetry. apply Qle_bool_iff. unfold percentageUsed.
  apply Qle_trans with ((4 # 5) * inject_Z 100)%Q.
  - unfold Qle; simpl; lia.
  - apply Qmult_le_compat_r; [exact Hq | unfold Qle; simpl; lia].
Qed.

(** Claim C1: for a state with status working or planning and a valid
    configuration ([maxTokens > 0]), if the window has not elapsed and
    [tokenUsage / maxTokens >= 0.80], the rate-limit check denies the call,
    and the step that makes it ends with status cooldown and
    [nextAllowedQueryTime = now + (periodMs - elapsed)], nothing else
    changed and no model call made. *)
Theorem rate_limit_denies_at_threshold
    (JSON_parse : string -> JsError + JsonVal) (cfg : RateLimitConfig) (query : string)
    (tm : StepTimes) (gw1 gw2 : GwResult) (st : AppState)
    (Hvalid : 0 < maxTokens cfg)
    (Hstatus : st_status st = Working \/ st_status st = Planning)
    (Hwindow : t_start tm - windowStartTime st <= periodMs cfg)
    (Hratio : (4 # 5 <= inject_Z (tokenUsage st) / inject_Z (maxTokens cfg))%Q) :
  fst (checkRateLimit cfg (t_start tm) st) = false /\
  processNextStep JSON_parse cfg query tm gw1 gw2 st =
    mkState Cooldown (tasks st) (logs st) (currentTaskIndex st) (tokenUsage st)
      (windowStartTime st)
      (t_start tm + (periodMs cfg - (t_start tm - windowStartTime st)))
      (finalOutput st) (agentPrompts st).
Proof.
  rewrite (checkRateLimit_deny cfg (t_start tm) st Hwindow Hratio). split; [reflexivity|].
  unfold processNextStep.
  rewrite (checkRateLimit_deny cfg (t_start tm) st Hwindow Hratio).
  destruct Hstatus as [H | H]; rewrite H; reflexivity.
Qed.

(** The cooldown tick never touches [tokenUsage]. *)
Lemma cooldownTick_tokenUsage (now : Z) (s : AppState) :
  tokenUsage (cooldownTick now s) = tokenUsage s.
Proof.
  unfold cooldownTick.
  destruct (Z.max 0 (nextAllowedQueryTime s - now) <=? 0); [|reflexivity].
  destruct (negb (status_eqb (st_status s) Paused)); reflexivity.
Qed.

(** Claim C7 (code defect): when the window of [cooling_state] elapses
    (time 60000) the next timer tick resumes [working] but keeps
    [tokenUsage = 850] (only [windowStartTime] is moved to now), and the
    next step, one second later, is denied again and re-enters cooldown
    for a full period. *)
Theorem cooldown_tick_keeps_tokenUsage :
  let s := cooldownTick 60000 cooling_state in
  st_status s = Working /\ tokenUsage s = 850 /\ windowStartTime s = 60000 /\
  st_status (processNextStep parse_nothing cfg_1000_per_minute "q"
               (mkTimes 61000 61000 61000) (GwOk ok_response) (GwOk ok_response) s) = Cooldown.
Proof. vm_compute. repeat split. Qed.

(** Witness for C1: 850 of 1000 tokens used one second into a one-minute
    window. *)
Lemma rate_limit_denies_at_threshold_witness :
  0 < maxTokens cfg_1000_per_minute /\
  fst (checkRateLimit cfg_1000_per_minute 1000
         (mkState Working [task_a] [] 0 850 0 0 None DEFAULT_AGENT_PROMPTS)) = false /\
  processNextStep parse_nothing cfg_1000_per_minute "q" (mkTimes 1000 1000 1000)
    (GwOk ok_response) (GwOk ok_response)
    (mkState Working [task_a] [] 0 850 0 0 None DEFAULT_AGENT_PROMPTS) =
  mkState Cooldown [task_a] [] 0 850 0 60000 None DEFAULT_AGENT_PROMPTS.
Proof.
  split; [vm_compute; reflexivity|].
  apply (rate_limit_denies_at_threshold parse_nothing cfg_1000_per_minute "q"
           (mkTimes 1000 1000 1000) (GwOk ok_response) (GwOk ok_response)
           (mkState Working [task_a] [] 0 850 0 0 None DEFAULT_AGENT_PROMPTS)).
  - vm_compute; reflexivity.
  - left; reflexivity.
  - vm_compute; discriminate.
  - vm_compute; discriminate.
Defined.

(* ------------------------------------------------------------------ *)
(** ** The key failover loop *)

(** Claim C3 (code defect): the [Error] thrown for a SAFETY block has no
    [status], so the [catch] classifies it as a server error (status 500)
    and the loop goes on to key [B], returning B's response instead of
    propagating the block. *)
Theorem content_block_retried_on_next_key :
  executionOrder env_two_keys SUPERVISOR = ["A"; "B"] /\
  generateContentWithFallback env_two_keys SUPERVISOR blocked_then_ok =
    (["A"; "B"], GwOk ok_response) /\
  isServer (newError "Content generation blocked: SAFETY") = true.
Proof. vm_compute. repeat split. Qed.

(* ------------------------------------------------------------------ *)
(** ** Session loading *)

Lemma default_prompts_total : prompts_total DEFAULT_AGENT_PROMPTS.
Proof. intros r; destruct r; vm_compute; eexists; reflexivity. Qed.

(** Claim C9, counterexample: loading [loaded_partial] leaves the
    Researcher (and every role but the Supervisor) without a prompt. *)
Lemma load_session_keeps_partial_prompts :
  ~ prompts_total (agentPrompts (handleLoadSession 0 loaded_partial)).
Proof.
  intros H. destruct (H RESEARCHER) as [p Hp]. vm_compute in Hp. discriminate.
Qed.

(** Claim C9, as amended: a loaded session's [agentPrompts] object is taken
    as it is when present and replaced by the defaults only when absent;
    so the in-memory map is total exactly when the loaded one is total or
    absent (same merge on the autosave resume). *)
Theorem load_session_prompts
    (loadTime : Z) (ld : LoadedState) :
  agentPrompts (handleLoadSession loadTime ld) =
    match ld_agentPrompts ld with Some p => p | None => DEFAULT_AGENT_PROMPTS end /\
  (prompts_total (agentPrompts (handleLoadSession loadTime ld)) <->
    match ld_agentPrompts ld with Some p => prompts_total p | None => True end) /\
  (forall s, agentPrompts (resumeAutosave loadTime ld s) =
    match ld_status ld with
    | Some Idle | Some CompletedS => agentPrompts s
    | _ => agentPrompts (handleLoadSession loadTime ld)
    end).
Proof.
  split; [|split].
  - unfold handleLoadSession, mergeLoadedState. reflexivity.
  - unfold handleLoadSession, mergeLoadedState; simpl.
    destruct (ld_agentPrompts ld) as [p|]; simpl; [tauto|].
    split; [tauto|]. intros _. exact default_prompts_total.
  - intros s. unfold resumeAutosave.
    destruct (ld_status ld) as [[]|]; reflexivity.
Qed.

(* ------------------------------------------------------------------ *)
(** ** Key order and failover outcome *)

Lemma existsb_eqb_In (x : string) (seen : list string) :
  existsb (String.eqb x) seen = true <-> In x seen.
Proof.
  rewrite existsb_exists. split.
  - intros [y [Hy Heq]]. apply String.eqb_eq in Heq. subst. exact Hy.
  - intros H. exists x. split; [exact H | apply String.eqb_refl].
Qed.

Lemma set_from_go_In (seen xs : list string) (x : string) :
  In x (set_from_go seen xs) <-> In x xs /\ ~ In x seen.
Proof.
  revert seen. induction xs as [|y t IH]; intros seen; simpl; [tauto|].
  destruct (existsb (String.eqb y) seen) eqn:E.
  - apply existsb_eqb_In in E. rewrite IH. split.
    + intros [H1 H2]. tauto.
    + intros [[<- | H1] H2]; [contradiction | tauto].
  - assert (~ In y seen) as Hy by (intros H; apply existsb_eqb_In in H; congruence).
    simpl. rewrite IH. simpl. split.
    + intros [<- | [H1 H2]]; [tauto|]. split; [tauto|]. tauto.
    + intros [[<- | H1] H2]; [tauto|].
      destruct (String.eqb_spec y x) as [<- | Hne]; [tauto|].
      right. split; [exact H1|]. intros [Heq | H3]; [congruence | contradiction].
Qed.

Lemma set_from_go_NoDup (seen xs : list string) : List.NoDup (set_from_go seen xs).
Proof.
  revert seen. induction xs as [|y t IH]; intros seen; simpl; [constructor|].
  destruct (existsb (String.eqb y) seen); [apply IH|].
  constructor; [|apply IH].
  rewrite set_from_go_In. simpl. tauto.
Qed.

Lemma API_KEYS_in_pool (env : Env) (r : AgentRole) :
  truthy (API_KEYS env r) = true -> In (API_KEYS env r) (keyPool env).
Proof.
  intros H. unfold keyPool. apply set_from_go_In. split; [|simpl; tauto].
  apply filter_In. split; [|exact H].
  apply in_or_app. left. apply in_map. destruct r; simpl; tauto.
Qed.

Lemma primaryKey_in_pool (env : Env) (r : AgentRole) :
  moduleLoads env -> In (primaryKey env r) (keyPool env).
Proof.
  intros Hload. unfold primaryKey, or_str.
  destruct (truthy (API_KEYS env r)) eqn:E; [apply API_KEYS_in_pool, E|].
  unfold moduleLoads in Hload. destruct (keyPool env) as [|k ks]; [contradiction|]. simpl. tauto.
Qed.

Lemma fallbackLoop_retry (attempt : string -> Attempt) (k : string) (rest : list string)
    (last : option JsError) (e : JsError) :
  tryKey (attempt k) = inr e -> retriable e = true ->
  fallbackLoop attempt (k :: rest) last =
    (k :: fst (fallbackLoop attempt rest (Some e)), snd (fallbackLoop attempt rest (Some e))).
Proof.
  intros Ht Hr. simpl. rewrite Ht. unfold retriable in Hr.
  apply andb_prop in Hr as [Hg Hq]. apply negb_true_iff in Hg. rewrite Hg, Hq.
  destruct (fallbackLoop attempt rest (Some e)); reflexivity.
Qed.

Lemma fallbackLoop_first_success (attempt : string -> Attempt) (pre : list string)
    (k : string) (post : list string) (resp : Response) (last : option JsError) :
  Forall (retries attempt) pre -> tryKey (attempt k) = inl resp ->
  fallbackLoop attempt (pre ++ k :: post) last = (pre ++ [k], GwOk resp).
Proof.
  intros Hpre Hk. revert last. induction Hpre as [|x pre [e [Hx Hr]] _ IH]; intros last.
  - simpl. rewrite Hk. reflexivity.
  - simpl app. rewrite (fallbackLoop_retry attempt x _ last e Hx Hr), IH. reflexivity.
Qed.

Lemma fallbackLoop_exhausted (attempt : string -> Attempt) (pre : list string)
    (k : string) (e : JsError) (last : option JsError) :
  Forall (retries attempt) pre -> tryKey (attempt k) = inr e -> retriable e = true ->
  fallbackLoop attempt (pre ++ [k]) last = (pre ++ [k], GwErr e).
Proof.
  intros Hpre Hk Hre. revert last. induction Hpre as [|x pre [e' [Hx Hr]] _ IH]; intros last.
  - simpl app. rewrite (fallbackLoop_retry attempt k [] last e Hk Hre). reflexivity.
  - simpl app. rewrite (fallbackLoop_retry attempt x _ last e' Hx Hr), IH. reflexivity.
Qed.

Lemma fallbackLoop_fatal (attempt : string -> Attempt) (pre : list string)
    (k : string) (post : list string) (e : JsError) (last : option JsError) :
  Forall (retries attempt) pre -> tryKey (attempt k) = inr e -> retriable e = false ->
  fallbackLoop attempt (pre ++ k :: post) last = (pre ++ [k], GwErr e).
Proof.
  intros Hpre Hk Hre. revert last. induction Hpre as [|x pre [e' [Hx Hr]] _ IH]; intros last.
  - simpl. rewrite Hk. unfold retriable in Hre.
    destruct (isGlobalQuotaExhausted e); [reflexivity|].
    simpl in Hre. rewrite Hre. reflexivity.
  - simpl app. rewrite (fallbackLoop_retry attempt x _ last e' Hx Hr), IH. reflexivity.
Qed.

(** Claim C6: with a loaded module (non-empty key pool), a logical call
    for a role tries first the role's own key (or the first pool key when
    the role has none), then every other pool key exactly once, in pool
    order; it stops at the first success (after retriable failures only),
    and when every key fails with a retriable error it propagates the last
    recorded error. A non-retriable error stops the loop at once, and the
    generic exhaustion error is what an empty key list gives. *)
Theorem failover_order_and_outcome (env : Env) (r : AgentRole)
    (attempt : string -> Attempt) (Hload : moduleLoads env) :
  (truthy (API_KEYS env r) = true -> primaryKey env r = API_KEYS env r) /\
  executionOrder env r =
    primaryKey env r :: List.filter (fun k => negb (String.eqb k (primaryKey env r))) (keyPool env) /\
  List.NoDup (executionOrder env r) /\
  (forall k, In k (executionOrder env r) <-> In k (keyPool env)) /\
  (forall pre k post resp,
     executionOrder env r = pre ++ k :: post -> Forall (retries attempt) pre ->
     tryKey (attempt k) = inl resp ->
     generateContentWithFallback env r attempt = (pre ++ [k], GwOk resp)) /\
  (forall pre k e,
     executionOrder env r = pre ++ [k] -> Forall (retries attempt) pre ->
     tryKey (attempt k) = inr e -> retriable e = true ->
     generateContentWithFallback env r attempt = (pre ++ [k], GwErr e)) /\
  (forall pre k post e,
     executionOrder env r = pre ++ k :: post -> Forall (retries attempt) pre ->
     tryKey (attempt k) = inr e -> retriable e = false ->
     generateContentWithFallback env r attempt = (pre ++ [k], GwErr e)) /\
  fallbackLoop attempt [] None = ([], GwErr exhaustedError).
Proof.
  split; [|split; [|split; [|split; [|split; [|split; [|split]]]]]].
  - intros H. unfold primaryKey, or_str. rewrite H. reflexivity.
  - reflexivity.
  - unfold executionOrder, backupKeys. constructor.
    + intros Hin. apply filter_In in Hin as [_ Hneq].
      rewrite String.eqb_refl in Hneq. discriminate.
    + apply List.NoDup_filter, set_from_go_NoDup.
  - intros k. unfold executionOrder, backupKeys. simpl. rewrite filter_In. split.
    + intros [<- | [H _]]; [apply primaryKey_in_pool, Hload | exact H].
    + intros H. destruct (String.eqb_spec k (primaryKey env r)) as [-> | Hne]; [tauto|].
      right. split; [exact H|]. reflexivity.
  - intros pre k post resp Ho Hpre Hk. unfold generateContentWithFallback.
    rewrite Ho. apply fallbackLoop_first_success; assumption.
  - intros pre k e Ho Hpre Hk Hre. unfold generateContentWithFallback.
    rewrite Ho. apply fallbackLoop_exhausted; assumption.
  - intros pre k post e Ho Hpre Hk Hre. unfold generateContentWithFallback.
    rewrite Ho. apply fallbackLoop_fatal; assumption.
  - reflexivity.
Qed.

(** Witness for C6: Supervisor key [A], shared key [B]. *)
Lemma failover_order_and_outcome_witness :
  moduleLoads env_two_keys /\
  executionOrder env_two_keys SUPERVISOR =
    primaryKey env_two_keys SUPERVISOR ::
      List.filter (fun k => negb (String.eqb k (primaryKey env_two_keys SUPERVISOR)))
        (keyPool env_two_keys).
Proof.
  split; [vm_compute; discriminate|].
  apply (failover_order_and_outcome env_two_keys SUPERVISOR blocked_then_ok).
  vm_compute; discriminate.
Defined.

(* ------------------------------------------------------------------ *)
(** ** The orchestration step: frame lemmas *)

(** The three updaters [checkRateLimit] can issue. *)
Lemma checkRateLimit_shape (cfg : RateLimitConfig) (now : Z) (ref : AppState) :
  checkRateLimit cfg now ref = (true, fun s => s) \/
  checkRateLimit cfg now ref =
    (true, fun s =>
     mkState (if status_eqb s.(st_status) Cooldown then Working else s.(st_status))
       s.(tasks) s.(logs) s.(currentTaskIndex) 0 now
       s.(nextAllowedQueryTime) s.(finalOutput) s.(agentPrompts)) \/
  exists t, checkRateLimit cfg now ref =
    (false, fun s =>
     mkState Cooldown s.(tasks) s.(logs) s.(currentTaskIndex) s.(tokenUsage)
       s.(windowStartTime) t s.(finalOutput) s.(agentPrompts)).
Proof.
  unfold checkRateLimit.
  destruct (periodMs cfg <? now - windowStartTime ref); [right; left; reflexivity|].
  destruct (Qle_bool _ _); [right; right; eexists; reflexivity | left; reflexivity].
Qed.

Lemma update_at_take {A} (k : nat) (g : A -> A) (l : list A) :
  take k (imap (fun i t => if Nat.eqb i k then g t else t) l) = take k l.
Proof.
  apply list_eq. intros j. destruct (decide (j < k)%nat) as [Hj|Hj].
  - rewrite !lookup_take_lt by exact Hj. rewrite list_lookup_imap.
    destruct (l !! j); simpl; [|reflexivity].
    replace (Nat.eqb j k) with false by (symmetry; apply Nat.eqb_neq; lia). reflexivity.
  - rewrite !lookup_take_ge by lia. reflexivity.
Qed.

Lemma update_at_length {A} (k : nat) (g : A -> A) (l : list A) :
  length (imap (fun i t => if Nat.eqb i k then g t else t) l) = length l.
Proof. apply length_imap. Qed.


Lemma markCompleted_length (i : nat) (r : TaskResult) (l : list Task) :
  length (markCompleted i r l) = length l.
Proof. apply update_at_length. Qed.

Lemma stepCatch_frame (err : JsError) (s : AppState) :
  st_status (stepCatch err s) = Paused /\
  tasks (stepCatch err s) = tasks s /\
  currentTaskIndex (stepCatch err s) = currentTaskIndex s /\
  tokenUsage (stepCatch err s) = tokenUsage s /\
  exists e, logs (stepCatch err s) = logs s ++ [e] /\ log_type e = LError.
Proof.
  unfold stepCatch. destruct (_ || _); simpl; (split; [reflexivity|]);
    repeat split; eexists; split; reflexivity.
Qed.

Lemma stepCatch_tasks (err : JsError) (s : AppState) : tasks (stepCatch err s) = tasks s.
Proof. apply (stepCatch_frame err s). Qed.


Section Replan.
Variables (JSON_parse : string -> JsError + JsonVal) (cfg : RateLimitConfig)
  (query : string) (tm : StepTimes) (gw2 : GwResult) (prompts : AgentPrompts)
  (taskIndex : nat) (updated : list Task) (s : AppState).

Lemma replanBlock_error (err : JsError) (s' : AppState) :
  replanBlock JSON_parse cfg query tm gw2 prompts taskIndex updated s = inl (err, s') ->
  tasks s' = tasks s /\ currentTaskIndex s' = currentTaskIndex s.
Proof.
  unfold replanBlock.
  destruct (0 <? _)%nat; [|discriminate].
  destruct (checkRateLimit_shape cfg (t_mid tm) s) as [H|[H|[t H]]]; rewrite H;
    cbv beta iota zeta; [| |discriminate];
    destruct (rp_tasks _); try discriminate; intros Heq; inversion Heq; subst; simpl;
    split; reflexivity.
Qed.

Lemma replanBlock_ok (nextTasks : list Task) (u : Z) (s' : AppState) :
  replanBlock JSON_parse cfg query tm gw2 prompts taskIndex updated s = inr (nextTasks, u, s') ->
  currentTaskIndex s' = currentTaskIndex s /\
  take (S taskIndex) nextTasks = take (S taskIndex) updated /\
  (S taskIndex <= length updated -> S taskIndex <= length nextTasks)%nat.
Proof.
  unfold replanBlock.
  destruct (0 <? _)%nat eqn:Hrem.
  2:{ intros Heq; inversion Heq; subst. split; [reflexivity|]. split; [reflexivity|]. lia. }
  apply Nat.ltb_lt in Hrem.
  destruct (checkRateLimit_shape cfg (t_mid tm) s) as [H|[H|[t H]]]; rewrite H;
    cbv beta iota zeta.
  1, 2: destruct (rp_tasks _) as [raws|]; [|discriminate]; intros Heq; inversion Heq; subst;
    simpl; split; [reflexivity|];
    (assert (length (take (S taskIndex) updated) = S taskIndex) as Hl
       by (apply length_take_le; lia));
    split; [apply take_app_length'; symmetry; exact Hl
           | intros _; rewrite length_app, Hl; lia].
  intros Heq; inversion Heq; subst. split; [reflexivity|]. split; [reflexivity|]. lia.
Qed.

End Replan.


Lemma update_at_drop {A} (k : nat) (g : A -> A) (l : list A) :
  drop (S k) (imap (fun i t => if Nat.eqb i k then g t else t) l) = drop (S k) l.
Proof.
  apply list_eq. intros j. rewrite !lookup_drop, list_lookup_imap.
  destruct (l !! (S k + j)%nat); [|reflexivity]. cbv beta.
  replace (Nat.eqb (S k + j) k) with false by (symmetry; apply Nat.eqb_neq; lia).
  reflexivity.
Qed.

Lemma markCompleted_drop (i : nat) (r : TaskResult) (l : list Task) :
  drop (S i) (markCompleted i r l) = drop (S i) l.
Proof. apply update_at_drop. Qed.

(** [checkRateLimit] reads only [tokenUsage] and [windowStartTime]. *)
Lemma checkRateLimit_ref (cfg : RateLimitConfig) (now : Z) (a b : AppState) :
  tokenUsage a = tokenUsage b -> windowStartTime a = windowStartTime b ->
  checkRateLimit cfg now a = checkRateLimit cfg now b.
Proof. intros Hu Hw. unfold checkRateLimit. rewrite Hu, Hw. reflexivity. Qed.

Lemma updateSupervisorPlan_fails (JSON_parse : string -> JsError + JsonVal)
    (q : string) (c r : list Task) (p : AgentPrompts) (gw : GwResult) :
  replanCallFails JSON_parse gw = true ->
  rp_tasks (updateSupervisorPlan JSON_parse q c r p gw) = RArray (map raw_of_task r) /\
  rp_usage (updateSupervisorPlan JSON_parse q c r p gw) = 0.
Proof.
  unfold replanCallFails, updateSupervisorPlan. destruct gw as [resp|e]; [|split; reflexivity].
  destruct (JSON_parse _); [split; reflexivity | discriminate].
Qed.

Lemma replanBlock_fallback (JSON_parse : string -> JsError + JsonVal) (cfg : RateLimitConfig)
    (query : string) (tm : StepTimes) (gw2 : GwResult) (prompts : AgentPrompts)
    (i : nat) (updated : list Task) (s : AppState) :
  (S i < length updated)%nat ->
  fst (checkRateLimit cfg (t_mid tm) s) = true ->
  replanCallFails JSON_parse gw2 = true ->
  exists s',
    replanBlock JSON_parse cfg query tm gw2 prompts i updated s =
      inr (take (S i) updated ++ imap (task_of_raw (t_end tm)) (map raw_of_task (drop (S i) updated)),
           0, s') /\
    st_status s' = st_status (snd (checkRateLimit cfg (t_mid tm) s) s) /\
    tokenUsage s' = tokenUsage (snd (checkRateLimit cfg (t_mid tm) s) s) /\
    currentTaskIndex s' = currentTaskIndex s.
Proof.
  intros Hlen Hok Hfail. unfold replanBlock.
  replace (0 <? length updated - S i)%nat with true by (symmetry; apply Nat.ltb_lt; lia).
  destruct (updateSupervisorPlan_fails JSON_parse query (take (S i) updated)
              (drop (S i) updated) prompts gw2 Hfail) as [Ht Hu].
  destruct (checkRateLimit_shape cfg (t_mid tm) s) as [H|[H|[t H]]]; rewrite H in *; clear H;
    cbv beta iota zeta; [| |discriminate]; rewrite Ht, Hu;
    eexists; (split; [reflexivity|]); simpl; repeat split.
Qed.

(** Claim C4: a re-plan keeps the first [i+1] tasks (the completed prefix,
    the task just executed included) exactly as they were before it, and a
    whole working step keeps the first [currentTaskIndex] tasks exactly as
    they were before the step, whatever the model returns. *)
Theorem replan_keeps_completed_prefix
    (JSON_parse : string -> JsError + JsonVal) (cfg : RateLimitConfig) (query : string)
    (tm : StepTimes) (gw1 gw2 : GwResult) (st : AppState)
    (Hw : st_status st = Working) :
  (forall gw prompts i updated s nextTasks u s',
     replanBlock JSON_parse cfg query tm gw prompts i updated s = inr (nextTasks, u, s') ->
     take (S i) nextTasks = take (S i) updated) /\
  take (currentTaskIndex st) (tasks (processNextStep JSON_parse cfg query tm gw1 gw2 st)) =
    take (currentTaskIndex st) (tasks st).
Proof.
  split.
  { intros gw prompts i updated s nextTasks u s' Hrp.
    apply replanBlock_ok in Hrp as (_ & Htake & _). exact Htake. }
  unfold processNextStep. rewrite Hw. cbv beta iota zeta. simpl negb. simpl andb.
  destruct (checkRateLimit_shape cfg (t_start tm) st) as [H|[H|[t H]]]; rewrite H; clear H;
    cbv beta iota zeta; simpl negb; simpl status_eqb; cbv iota.
  3:{ reflexivity. }
  all: destruct (length (tasks st) <=? currentTaskIndex st)%nat eqn:Hlen.
  1, 3: destruct (superviseFinalOutput _ _ _); reflexivity.
  all: destruct (tasks st !! currentTaskIndex st) as [task|] eqn:Ht; [|reflexivity].
  all: destruct (executeAgentTask _ _ _ _ _) as [err|res] eqn:Hex.
  1, 3: rewrite stepCatch_tasks; simpl; apply update_at_take.
  all: destruct (replanBlock _ _ _ _ _ _ _ _ _) as [[err s']|[[nt u] s']] eqn:Hrp.
  1, 3: apply replanBlock_error in Hrp as [Hts _];
        rewrite stepCatch_tasks, Hts; simpl; apply update_at_take.
  all: apply replanBlock_ok in Hrp as (_ & Htake & _); simpl;
       assert (forall l : list Task,
                 take (currentTaskIndex st) l = take (currentTaskIndex st) (take (S (currentTaskIndex st)) l))
         as Hsub by (intros l; rewrite take_take; f_equal; lia);
       rewrite Hsub, Htake, <- Hsub; apply update_at_take.
Qed.

(** Claim C10: a final-synthesis step (status [working], every task done,
    the rate limiter permitting the call) always ends with status
    [completed] and a set [finalOutput], the synthesis text; when the model
    call fails, that text is an error message and the call is charged zero
    tokens. *)
Theorem final_synthesis_always_completes
    (JSON_parse : string -> JsError + JsonVal) (cfg : RateLimitConfig) (query : string)
    (tm : StepTimes) (gw1 gw2 : GwResult) (st : AppState)
    (Hw : st_status st = Working)
    (Hdone : (length (tasks st) <= currentTaskIndex st)%nat)
    (Hok : fst (checkRateLimit cfg (t_start tm) st) = true) :
  let synth := superviseFinalOutput (final_context (tasks st)) (agentPrompts st) gw1 in
  let st' := processNextStep JSON_parse cfg query tm gw1 gw2 st in
  st_status st' = CompletedS /\
  finalOutput st' = Some (fr_text synth) /\
  tokenUsage st' = tokenUsage (snd (checkRateLimit cfg (t_start tm) st) st) + fr_usage synth /\
  (forall e, gw1 = GwErr e ->
     fr_text synth = "Error generating final output: " +:+ err_string e /\ fr_usage synth = 0).
Proof.
  cbv zeta. split; [|split; [|split]].
  4:{ intros e ->. split; reflexivity. }
  all: unfold processNextStep; rewrite Hw; cbv beta iota zeta; simpl negb; simpl andb.
  all: destruct (checkRateLimit_shape cfg (t_start tm) st) as [H|[H|[t H]]]; rewrite H in *;
       clear H; [| |simpl in Hok; discriminate];
       cbv beta iota zeta; simpl negb; simpl status_eqb; cbv iota;
       rewrite (proj2 (Nat.leb_le _ _) Hdone);
       destruct (superviseFinalOutput _ _ _); reflexivity.
Qed.

(** Claim C2, as amended: when the model call of a task-execution step
    fails, the step ends [paused]; the task at [currentTaskIndex] stays
    marked [in-progress] (the mark is committed before the call), the
    other tasks, [currentTaskIndex] and [tokenUsage] (as left by the rate
    check) are unchanged, and the log gains the "Starting Task" action
    entry and exactly one error entry. When the planning call fails, the
    step ends [paused] with the task list, index and usage unchanged and
    the log gains the "Thinking..." plan entry and one error entry. *)
Theorem failed_call_pauses_step
    (JSON_parse : string -> JsError + JsonVal) (cfg : RateLimitConfig) (query : string)
    (tm : StepTimes) (gw1 gw2 : GwResult) (st : AppState)
    (Hok : fst (checkRateLimit cfg (t_start tm) st) = true) :
  let s1 := snd (checkRateLimit cfg (t_start tm) st) st in
  let st' := processNextStep JSON_parse cfg query tm gw1 gw2 st in
  (st_status st = Working ->
   forall task err,
     tasks st !! currentTaskIndex st = Some task ->
     executeAgentTask (assignedAgent task) task
       (task_context (take (currentTaskIndex st) (tasks st))) (agentPrompts st) gw1 = inl err ->
     st_status st' = Paused /\
     tasks st' = markInProgress (currentTaskIndex st) (tasks st) /\
     currentTaskIndex st' = currentTaskIndex st /\
     tokenUsage st' = tokenUsage s1 /\
     exists a e, logs st' = logs st ++ [a; e] /\ log_type a = LAction /\ log_type e = LError) /\
  (st_status st = Planning ->
   forall err,
     createSupervisorPlan JSON_parse query (agentPrompts st) gw1 (t_mid tm) = inl err ->
     st_status st' = Paused /\
     tasks st' = tasks st /\
     currentTaskIndex st' = currentTaskIndex st /\
     tokenUsage st' = tokenUsage s1 /\
     exists a e, logs st' = logs st ++ [a; e] /\ log_type a = LPlan /\ log_type e = LError).
Proof.
  cbv zeta. split.
  - intros Hw task err Ht Hex.
    assert (currentTaskIndex st < length (tasks st))%nat as Hlt
      by (apply lookup_lt_Some in Ht; exact Ht).
    unfold processNextStep. rewrite Hw. cbv beta iota zeta. simpl negb. simpl andb.
    destruct (checkRateLimit_shape cfg (t_start tm) st) as [H|[H|[t H]]]; rewrite H in *;
      clear H; [| |simpl in Hok; discriminate].
    all: cbv beta iota zeta; simpl negb; simpl status_eqb; cbv iota.
    all: rewrite (proj2 (Nat.leb_gt _ _) Hlt), Ht, Hex.
    all: match goal with |- context [stepCatch ?e ?s] =>
           destruct (stepCatch_frame e s) as (Hs & Hts & Hix & Hu & le & Hl & Hle) end.
    all: rewrite Hs, Hts, Hix, Hu, Hl; simpl.
    all: split; [reflexivity|]; split; [reflexivity|]; split; [reflexivity|].
    all: split; [reflexivity|].
    all: eexists; exists le; rewrite <- app_assoc; simpl.
    all: split; [reflexivity|]; split; [reflexivity | exact Hle].
  - intros Hp err Hpl.
    unfold processNextStep. rewrite Hp. cbv beta iota zeta. simpl negb. simpl andb.
    destruct (checkRateLimit_shape cfg (t_start tm) st) as [H|[H|[t H]]]; rewrite H in *;
      clear H; [| |simpl in Hok; discriminate].
    all: cbv beta iota zeta; simpl negb; simpl status_eqb; cbv iota.
    all: rewrite Hpl.
    all: match goal with |- context [stepCatch ?e ?s] =>
           destruct (stepCatch_frame e s) as (Hs & Hts & Hix & Hu & le & Hl & Hle) end.
    all: rewrite Hs, Hts, Hix, Hu, Hl; simpl.
    all: split; [reflexivity|]; split; [reflexivity|]; split; [reflexivity|].
    all: split; [reflexivity|].
    all: eexists; exists le; rewrite <- app_assoc; simpl.
    all: split; [reflexivity|]; split; [reflexivity | exact Hle].
Qed.

(** Claim C5, as amended: when the re-planning call of a working step is
    made (tasks remain and the rate limiter permits it) and fails (the
    gateway call throws or its text is not JSON), the step still commits:
    status stays [working], the index moves past the executed task, the
    completed prefix is kept, and the remaining tasks keep their titles,
    descriptions and agents in order but are rebuilt as [pending] tasks with
    fresh time-stamped ids; the attempt adds zero tokens. *)
Theorem failed_replan_keeps_remaining
    (JSON_parse : string -> JsError + JsonVal) (cfg : RateLimitConfig) (query : string)
    (tm : StepTimes) (gw1 gw2 : GwResult) (st : AppState) (task : Task) (res : TaskResult)
    (Hw : st_status st = Working)
    (Ht : tasks st !! currentTaskIndex st = Some task)
    (Hrem : (S (currentTaskIndex st) < length (tasks st))%nat)
    (Hok1 : fst (checkRateLimit cfg (t_start tm) st) = true)
    (Hex : executeAgentTask (assignedAgent task) task
             (task_context (take (currentTaskIndex st) (tasks st))) (agentPrompts st) gw1 = inr res)
    (Hok2 : fst (checkRateLimit cfg (t_mid tm) (snd (checkRateLimit cfg (t_start tm) st) st)) = true)
    (Hfail : replanCallFails JSON_parse gw2 = true) :
  let i := currentTaskIndex st in
  let s1 := snd (checkRateLimit cfg (t_start tm) st) st in
  let st' := processNextStep JSON_parse cfg query tm gw1 gw2 st in
  st_status st' = Working /\
  currentTaskIndex st' = S i /\
  take (S i) (tasks st') = take (S i) (markCompleted i res (tasks st)) /\
  drop (S i) (tasks st') =
    imap (task_of_raw (t_end tm)) (map raw_of_task (drop (S i) (tasks st))) /\
  map raw_of_task (drop (S i) (tasks st')) = map raw_of_task (drop (S i) (tasks st)) /\
  tokenUsage st' = tokenUsage (snd (checkRateLimit cfg (t_mid tm) s1) s1) + (tr_usage res + 0).
Proof.
  cbv zeta.
  assert (currentTaskIndex st < length (tasks st))%nat as Hlt by lia.
  assert (S (currentTaskIndex st) < length (markCompleted (currentTaskIndex st) res (tasks st)))%nat
    as Hrem' by (rewrite markCompleted_length; exact Hrem).
  assert (length (take (S (currentTaskIndex st)) (markCompleted (currentTaskIndex st) res (tasks st)))
          = S (currentTaskIndex st)) as Htl by (apply length_take_le; lia).
  assert (forall l : list RawTask, map raw_of_task (imap (task_of_raw (t_end tm)) l) = l) as Hraw.
  { intros l. apply list_eq. intros j. rewrite list_lookup_fmap, list_lookup_imap.
    destruct (l !! j) as [[]|]; reflexivity. }
  unfold processNextStep. rewrite Hw. cbv beta iota zeta. simpl negb. simpl andb.
  destruct (checkRateLimit_shape cfg (t_start tm) st) as [H|[H|[t H]]]; rewrite H in *;
    clear H; [| |simpl in Hok1; discriminate].
  all: simpl in Hok2.
  all: cbv beta iota zeta; simpl negb; simpl status_eqb; cbv iota.
  all: rewrite (proj2 (Nat.leb_gt _ _) Hlt), Ht, Hex.
  all: match goal with
       | H2 : fst (checkRateLimit _ ?tmid ?X) = true
         |- context [replanBlock ?jp ?c ?q ?t ?g ?p ?i ?u ?s] =>
           rewrite <- (checkRateLimit_ref c tmid s X) in H2 by reflexivity;
           destruct (replanBlock_fallback jp c q t g p i u s Hrem' H2 Hfail)
             as (s' & Hrb & Hst & Htu & Hix);
           rewrite Hrb; unfold commitTask; simpl; rewrite Hix, Hst, Htu;
           rewrite (checkRateLimit_ref c tmid s X) in H2 |- * by reflexivity
       end.
  all: simpl.
  all: rewrite drop_app_length' by (symmetry; exact Htl).
  all: rewrite take_app_length' by (symmetry; exact Htl).
  all: rewrite markCompleted_drop, Hraw.
  all: match goal with
       | |- context [checkRateLimit ?c ?n ?x] =>
           destruct (checkRateLimit_shape c n x) as [H|[H|[t' H]]]; rewrite H in *; clear H
       end.
  all: simpl in *; try discriminate.
  all: rewrite ?Hw; repeat split; try reflexivity; try lia.
Qed.

(** Claim C2, counterexample: the Researcher task of [two_task_state] is
    executed with a failing model call; the step ends [paused] but the task
    is left [in-progress], the mark committed before the call. *)
Lemma failed_task_left_in_progress :
  let st' := processNextStep parse_nothing cfg_1000_per_minute "q" (mkTimes 10 20 30)
               failed_call (GwOk ok_response) two_task_state in
  st_status st' = Paused /\
  tasks st' !! 0%nat = Some (mkTask "task-1-0" "Research" "find facts" "Researcher" InProgress None None).
Proof. vm_compute. split; reflexivity. Qed.

(** Witness for C2: the rate check passes at time 10 and the failing
    Researcher call pauses the step. *)
Lemma failed_call_pauses_step_witness :
  fst (checkRateLimit cfg_1000_per_minute 10 two_task_state) = true /\
  st_status (processNextStep parse_nothing cfg_1000_per_minute "q" (mkTimes 10 20 30)
               failed_call (GwOk ok_response) two_task_state) = Paused.
Proof.
  assert (Hok : fst (checkRateLimit cfg_1000_per_minute 10 two_task_state) = true)
    by (vm_compute; reflexivity).
  split; [exact Hok|].
  destruct (failed_call_pauses_step parse_nothing cfg_1000_per_minute "q" (mkTimes 10 20 30)
              failed_call (GwOk ok_response) two_task_state Hok) as [Hexec _].
  destruct (Hexec eq_refl task_a (newError "Content generation blocked: SAFETY") eq_refl eq_refl)
    as [Hp _].
  exact Hp.
Defined.

(** Claim C5, counterexample: the Researcher task of [two_task_state]
    succeeds and the re-planning call fails at time 30; the remaining
    Writer task comes back with a new id, ["task-30-0"], so the remaining
    tasks are not unchanged. *)
Lemma failed_replan_renames_remaining :
  let st' := processNextStep parse_nothing cfg_1000_per_minute "q" (mkTimes 10 20 30)
               (GwOk ok_response) failed_call two_task_state in
  st_status st' = Working /\
  drop 1 (tasks st') = [mkTask "task-30-0" "Write" "draft report" "Writer" Pending None None] /\
  drop 1 (tasks st') <> drop 1 (tasks two_task_state).
Proof. vm_compute. split; [reflexivity|split; [reflexivity|discriminate]]. Qed.

(** Witness for C5: the same step, with every hypothesis checked. *)
Lemma failed_replan_keeps_remaining_witness :
  fst (checkRateLimit cfg_1000_per_minute 10 two_task_state) = true /\
  replanCallFails parse_nothing failed_call = true /\
  currentTaskIndex (processNextStep parse_nothing cfg_1000_per_minute "q" (mkTimes 10 20 30)
                      (GwOk ok_response) failed_call two_task_state) = 1%nat.
Proof.
  split; [vm_compute; reflexivity|]. split; [reflexivity|].
  edestruct (failed_replan_keeps_remaining parse_nothing cfg_1000_per_minute "q" (mkTimes 10 20 30)
               (GwOk ok_response) failed_call two_task_state task_a _ eq_refl eq_refl
               ltac:(simpl; lia) ltac:(vm_compute; reflexivity) eq_refl
               ltac:(vm_compute; reflexivity) eq_refl) as [_ [Hi _]].
  exact Hi.
Defined.

(** Witness for C4: a working step at index 1 of three tasks, so one task
    remains after it and the step re-plans; the re-plan returns two tasks. *)
Lemma replan_keeps_completed_prefix_witness :
  let s := mkState Working [task_a; task_b; task_c] [] 1 0 0 0 None DEFAULT_AGENT_PROMPTS in
  st_status s = Working /\
  (exists nt u s',
     replanBlock parse_plan cfg_1000_per_minute "q" (mkTimes 10 20 30) (GwOk ok_response)
       DEFAULT_AGENT_PROMPTS 1 [task_a; task_b; task_c] s = inr (nt, u, s') /\
     length nt = 4%nat /\
     take 2 nt = take 2 [task_a; task_b; task_c]) /\
  length (tasks (processNextStep parse_plan cfg_1000_per_minute "q" (mkTimes 10 20 30)
                   (GwOk ok_response) (GwOk ok_response) s)) = 4%nat /\
  take 1 (tasks (processNextStep parse_plan cfg_1000_per_minute "q" (mkTimes 10 20 30)
                   (GwOk ok_response) (GwOk ok_response) s)) = take 1 (tasks s).
Proof.
  cbv zeta.
  pose proof (replan_keeps_completed_prefix parse_plan cfg_1000_per_minute "q"
                (mkTimes 10 20 30) (GwOk ok_response) (GwOk ok_response)
                (mkState Working [task_a; task_b; task_c] [] 1 0 0 0 None DEFAULT_AGENT_PROMPTS)
                eq_refl) as [Hre Hstep].
  split; [reflexivity|]. split.
  - destruct (replanBlock parse_plan cfg_1000_per_minute "q" (mkTimes 10 20 30) (GwOk ok_response)
                DEFAULT_AGENT_PROMPTS 1 [task_a; task_b; task_c]
                (mkState Working [task_a; task_b; task_c] [] 1 0 0 0 None DEFAULT_AGENT_PROMPTS))
      as [[e s']|[[nt u] s']] eqn:Hrp.
    { vm_compute in Hrp. discriminate. }
    exists nt, u, s'. split; [reflexivity|]. split.
    + vm_compute in Hrp. injection Hrp as <- _ _. reflexivity.
    + exact (Hre _ _ _ _ _ _ _ _ Hrp).
  - split; [vm_compute; reflexivity|exact Hstep].
Defined.


(** Witness for C10: the single task is done and the synthesis call
    fails. *)
Lemma final_synthesis_always_completes_witness :
  let s := mkState Working [task_a] [] 1 0 0 0 None DEFAULT_AGENT_PROMPTS in
  fst (checkRateLimit cfg_1000_per_minute 1000 s) = true /\
  st_status (processNextStep parse_nothing cfg_1000_per_minute "q" (mkTimes 1000 1000 1000)
               failed_call (GwOk ok_response) s) = CompletedS.
Proof.
  cbv zeta. split; [vm_compute; reflexivity|].
  exact (proj1 (final_synthesis_always_completes parse_nothing cfg_1000_per_minute "q"
                  (mkTimes 1000 1000 1000) failed_call (GwOk ok_response)
                  (mkState Working [task_a] [] 1 0 0 0 None DEFAULT_AGENT_PROMPTS)
                  eq_refl ltac:(simpl; lia) ltac:(vm_compute; reflexivity))).
Defined.

(* ================================================================== *)
(** * Further properties of the code *)


(* ------------------------------------------------------------------ *)
(** ** The orchestration step: further properties *)


Lemma checkRateLimit_zero_usage (cfg : RateLimitConfig) (now : Z) (ref : AppState) :
  tokenUsage ref = 0 -> fst (checkRateLimit cfg now ref) = true.
Proof.
  intros H0. unfold checkRateLimit. destruct (_ <? _); [reflexivity|].
  rewrite H0. unfold percentageUsed.
  replace (Qle_bool (inject_Z 80) (inject_Z 0 / inject_Z (maxTokens cfg) * inject_Z 100)) with false;
    [reflexivity|].
  symmetry. apply not_true_iff_false. rewrite Qle_bool_iff.
  unfold Qdiv. rewrite Qmult_0_l, Qmult_0_l. unfold Qle; simpl; lia.
Qed.


Lemma checkRateLimit_elapsed (cfg : RateLimitConfig) (now : Z) (ref : AppState) :
  periodMs cfg < now - windowStartTime ref ->
  checkRateLimit cfg now ref =
    (true, fun s =>
     mkState (if status_eqb s.(st_status) Cooldown then Working else s.(st_status))
       s.(tasks) s.(logs) s.(currentTaskIndex) 0 now
       s.(nextAllowedQueryTime) s.(finalOutput) s.(agentPrompts)).
Proof. intros H. unfold checkRateLimit. rewrite (proj2 (Z.ltb_lt _ _) H). reflexivity. Qed.


Lemma replanBlock_not_cooldown (JSON_parse : string -> JsError + JsonVal) (cfg : RateLimitConfig)
    (query : string) (tm : StepTimes) (gw2 : GwResult) (prompts : AgentPrompts)
    (i : nat) (updated : list Task) (s : AppState) (nt : list Task) (u : Z) (s' : AppState) :
  tokenUsage s = 0 -> st_status s <> Cooldown ->
  replanBlock JSON_parse cfg query tm gw2 prompts i updated s = inr (nt, u, s') ->
  st_status s' <> Cooldown.
Proof.
  intros H0 Hs. unfold replanBlock.
  destruct (0 <? _)%nat; [|intros Heq; inversion Heq; subst; exact Hs].
  pose proof (checkRateLimit_zero_usage cfg (t_mid tm) s H0) as Hok.
  destruct (checkRateLimit_shape cfg (t_mid tm) s) as [H|[H|[t H]]]; rewrite H in *;
    [| |discriminate]; cbv beta iota zeta.
  all: destruct (rp_tasks _); intros Heq; inversion Heq; subst; simpl; try exact Hs.
  all: destruct (st_status s); simpl; discriminate.
Qed.


(** Extra X1: when the step runs (status planning or working) and more
    than one period has passed since [windowStartTime], the step never ends
    in cooldown, whatever the usage was. *)
Theorem elapsed_window_step_never_cools_down
    (JSON_parse : string -> JsError + JsonVal) (cfg : RateLimitConfig) (query : string)
    (tm : StepTimes) (gw1 gw2 : GwResult) (st : AppState)
    (Hr : isRunning (st_status st) = true)
    (Hel : periodMs cfg < t_start tm - windowStartTime st) :
  st_status (processNextStep JSON_parse cfg query tm gw1 gw2 st) <> Cooldown.
Proof.
  unfold processNextStep. rewrite (checkRateLimit_elapsed cfg (t_start tm) st Hel).
  destruct (st_status st) eqn:Hst; try discriminate Hr; cbv beta iota zeta; simpl negb; simpl andb;
    cbv iota; rewrite ?Hst; simpl status_eqb; cbv iota.
  - match goal with |- context [createSupervisorPlan ?a ?b ?c ?d ?e] =>
      destruct (createSupervisorPlan a b c d e) as [err|[ts u p]] end.
    + rewrite (proj1 (stepCatch_frame _ _)). discriminate.
    + simpl. discriminate.
  - destruct (length (tasks st) <=? currentTaskIndex st)%nat.
    + destruct (superviseFinalOutput _ _ _). simpl. discriminate.
    + destruct (tasks st !! currentTaskIndex st) as [task|]; [|simpl; rewrite ?Hst; discriminate].
      destruct (executeAgentTask _ _ _ _ _) as [err|res].
      * rewrite (proj1 (stepCatch_frame _ _)). discriminate.
      * destruct (replanBlock _ _ _ _ _ _ _ _ _) as [[err s']|[[nt u] s']] eqn:Hrp.
        -- rewrite (proj1 (stepCatch_frame _ _)). discriminate.
        -- simpl. eapply replanBlock_not_cooldown; [| |exact Hrp]; simpl; [reflexivity|].
           rewrite ?Hst; discriminate.
Qed.

Lemma elapsed_window_step_never_cools_down_witness :
  isRunning (st_status (mkState Working [task_a] [] 0 950 0 0 None DEFAULT_AGENT_PROMPTS)) = true /\
  periodMs cfg_1000_per_minute <
    t_start (mkTimes 120000 120000 120000)
    - windowStartTime (mkState Working [task_a] [] 0 950 0 0 None DEFAULT_AGENT_PROMPTS) /\
  st_status (processNextStep parse_nothing cfg_1000_per_minute "q" (mkTimes 120000 120000 120000)
               (GwOk ok_response) (GwOk ok_response)
               (mkState Working [task_a] [] 0 950 0 0 None DEFAULT_AGENT_PROMPTS)) <> Cooldown.
Proof.
  assert (Hr : isRunning (st_status (mkState Working [task_a] [] 0 950 0 0 None DEFAULT_AGENT_PROMPTS)) = true)
    by reflexivity.
  assert (Hel : periodMs cfg_1000_per_minute <
    t_start (mkTimes 120000 120000 120000)
    - windowStartTime (mkState Working [task_a] [] 0 950 0 0 None DEFAULT_AGENT_PROMPTS))
    by (vm_compute; reflexivity).
  split; [exact Hr|split; [exact Hel|]].
  exact (elapsed_window_step_never_cools_down parse_nothing cfg_1000_per_minute "q"
           (mkTimes 120000 120000 120000) (GwOk ok_response) (GwOk ok_response) _ Hr Hel).
Defined.


(** Extra X2: with a negative token budget (the panel accepts one:
    [parseInt("-5") || 1000] is [-5]) and a non-negative usage, the rate
    check always allows the query: the usage percentage is never 80 or more. *)
Theorem negative_maxTokens_never_denies (cfg : RateLimitConfig) (now : Z) (ref : AppState)
    (Hm : maxTokens cfg < 0) (Hu : 0 <= tokenUsage ref) :
  fst (checkRateLimit cfg now ref) = true.
Proof.
  unfold checkRateLimit. destruct (_ <? _); [reflexivity|].
  unfold percentageUsed.
  destruct (maxTokens cfg) as [|p|p]; [lia|lia|].
  replace (Qle_bool _ _) with false; [reflexivity|].
  unfold Qle_bool, Qdiv, Qmult, Qinv, inject_Z. simpl. symmetry. apply Z.leb_gt. lia.
Qed.

Lemma negative_maxTokens_never_denies_witness :
  maxTokens cfg_negative < 0 /\
  0 <= tokenUsage (mkState Working [task_a] [] 0 950 0 0 None DEFAULT_AGENT_PROMPTS) /\
  fst (checkRateLimit cfg_negative 10 (mkState Working [task_a] [] 0 950 0 0 None DEFAULT_AGENT_PROMPTS)) = true.
Proof.
  assert (Hm : maxTokens cfg_negative < 0) by (simpl; lia).
  assert (Hu : 0 <= tokenUsage (mkState Working [task_a] [] 0 950 0 0 None DEFAULT_AGENT_PROMPTS))
    by (simpl; lia).
  split; [exact Hm|split; [exact Hu|]].
  exact (negative_maxTokens_never_denies cfg_negative 10 _ Hm Hu).
Defined.


(** Extra X4: the orchestration step leaves the state unchanged unless the
    status is planning or working. The configuration is editable exactly
    when the status is neither running nor cooldown, the timer is never
    active while running, and a running status is neither paused nor idle. *)
Theorem step_only_when_running
    (JSON_parse : string -> JsError + JsonVal) (cfg : RateLimitConfig) (query : string)
    (tm : StepTimes) (gw1 gw2 : GwResult) (st : AppState) :
  (isRunning (st_status st) = false -> processNextStep JSON_parse cfg query tm gw1 gw2 st = st) /\
  (forall x : Status,
     isConfigEnabled x = negb (isRunning x) && negb (status_eqb x Cooldown) /\
     (isTimerActive x = true -> isRunning x = false) /\
     (isRunning x = true -> isPaused x = false /\ isIdle x = false)).
Proof.
  split.
  - intros Hr. unfold processNextStep. unfold isRunning in Hr.
    destruct (st_status st); try discriminate Hr; reflexivity.
  - intros x. destruct x; repeat split; try discriminate; reflexivity.
Qed.


Lemma planning_step_ok (JSON_parse : string -> JsError + JsonVal) (cfg : RateLimitConfig)
    (query : string) (tm : StepTimes) (gw1 gw2 : GwResult) (st : AppState) (plan : PlanResult)
    (Hp : st_status st = Planning)
    (Hok : fst (checkRateLimit cfg (t_start tm) st) = true)
    (Hpl : createSupervisorPlan JSON_parse query (agentPrompts st) gw1 (t_mid tm) = inr plan) :
  let s1 := snd (checkRateLimit cfg (t_start tm) st) st in
  let st' := processNextStep JSON_parse cfg query tm gw1 gw2 st in
  st_status st' = Working /\ tasks st' = pr_tasks plan /\ currentTaskIndex st' = 0%nat /\
  tokenUsage st' = tokenUsage s1 + pr_usage plan /\
  windowStartTime st' = windowStartTime s1 /\ agentPrompts st' = agentPrompts st /\
  map log_type (logs st') = map log_type (logs st) ++ [LPlan; LInfo; LPlan].
Proof.
  cbv zeta. unfold processNextStep. rewrite Hp. cbv beta iota zeta. simpl negb. simpl andb.
  destruct (checkRateLimit_shape cfg (t_start tm) st) as [H|[H|[t H]]]; rewrite H in *;
    clear H; [| |simpl in Hok; discriminate].
  all: cbv beta iota zeta; simpl negb; simpl status_eqb; cbv iota; rewrite Hpl;
       destruct plan as [ts u p]; simpl; rewrite ?map_app; repeat split.
  all: simpl; rewrite <- !app_assoc; reflexivity.
Qed.


Lemma createSupervisorPlan_array (JSON_parse : string -> JsError + JsonVal) (query : string)
    (prompts : AgentPrompts) (r : Response) (now : Z) (raws : list RawTask) :
  JSON_parse (or_opt_str (resp_text r) "[]") = inr (JArray raws) ->
  exists plan, createSupervisorPlan JSON_parse query prompts (GwOk r) now = inr plan /\
    pr_tasks plan = imap (task_of_raw now) raws /\ pr_usage plan = or_opt_Z (totalTokenCount r) 0.
Proof. intros H. unfold createSupervisorPlan. rewrite H. eexists; split; [reflexivity|split; reflexivity]. Qed.


Lemma task_of_raw_roundtrip (now : Z) (l : list RawTask) :
  map raw_of_task (imap (task_of_raw now) l) = l.
Proof.
  apply list_eq. intros j. rewrite list_lookup_fmap, list_lookup_imap.
  destruct (l !! j) as [[]|]; reflexivity.
Qed.


Lemma task_id_inj (now : Z) (i j : nat) : task_id now i = task_id now j -> i = j.
Proof.
  unfold task_id. intros H.
  apply (inj (String.app "task-")) in H.
  apply (inj (String.app (pretty now))) in H.
  apply (inj (String.app "-")) in H.
  apply (inj pretty) in H. exact H.
Qed.


(** Extra X6: a planning step that passes the rate check and whose plan
    response parses as an array of raw tasks ends working at index 0 with one
    task per raw task, in order and with the same title, description and
    agent. Every task is pending with no result and no usage; its id is
    [task-<now>-<position>], so the ids are distinct. The plan's tokens are
    added to the usage. *)
Theorem planning_step_builds_plan
    (JSON_parse : string -> JsError + JsonVal) (cfg : RateLimitConfig) (query : string)
    (tm : StepTimes) (gw2 : GwResult) (st : AppState) (r : Response) (raws : list RawTask)
    (Hp : st_status st = Planning)
    (Hok : fst (checkRateLimit cfg (t_start tm) st) = true)
    (Hparse : JSON_parse (or_opt_str (resp_text r) "[]") = inr (JArray raws)) :
  let s1 := snd (checkRateLimit cfg (t_start tm) st) st in
  let st' := processNextStep JSON_parse cfg query tm (GwOk r) gw2 st in
  st_status st' = Working /\ currentTaskIndex st' = 0%nat /\
  map raw_of_task (tasks st') = raws /\
  Forall (fun t => status t = Pending /\ result t = None /\ usage t = None) (tasks st') /\
  (forall i t, tasks st' !! i = Some t -> id t = task_id (t_mid tm) i) /\
  NoDup (map id (tasks st')) /\
  tokenUsage st' = tokenUsage s1 + or_opt_Z (totalTokenCount r) 0.
Proof.
  cbv zeta.
  destruct (createSupervisorPlan_array JSON_parse query (agentPrompts st) r (t_mid tm) raws Hparse)
    as (plan & Hpl & Hts & Hu).
  destruct (planning_step_ok JSON_parse cfg query tm (GwOk r) gw2 st plan Hp Hok Hpl)
    as (Hs & Htasks & Hi & Htu & _).
  rewrite Htasks, Hts. split; [exact Hs|]. split; [exact Hi|].
  split; [apply task_of_raw_roundtrip|].
  assert (Hid : forall i t, imap (task_of_raw (t_mid tm)) raws !! i = Some t ->
                  id t = task_id (t_mid tm) i /\ status t = Pending /\ result t = None /\ usage t = None).
  { intros i t H. rewrite list_lookup_imap in H.
    destruct (raws !! i); inversion H; subst; repeat split. }
  split; [|split; [|split]].
  - apply Forall_lookup. intros i t H. apply (Hid i t H).
  - intros i t H. apply (Hid i t H).
  - apply NoDup_alt. intros i j x Hi' Hj'.
    rewrite list_lookup_fmap in Hi', Hj'.
    destruct (imap _ raws !! i) as [ti|] eqn:Ei; [|discriminate].
    destruct (imap _ raws !! j) as [tj|] eqn:Ej; [|discriminate].
    simpl in Hi', Hj'. injection Hi' as <-. injection Hj' as Hj'.
    apply (task_id_inj (t_mid tm)).
    rewrite <- (proj1 (Hid i ti Ei)), <- (proj1 (Hid j tj Ej)). symmetry; exact Hj'.
  - rewrite Htu, Hu. reflexivity.
Qed.

Lemma planning_step_builds_plan_witness :
  st_status planning_state = Planning /\
  fst (checkRateLimit cfg_1000_per_minute 10 planning_state) = true /\
  parse_plan (or_opt_str (resp_text ok_response) "[]") =
    inr (JArray [mkRaw "Research" "find facts" "Researcher"; mkRaw "Write" "draft report" "Writer"]) /\
  NoDup (map id (tasks (processNextStep parse_plan cfg_1000_per_minute "q" (mkTimes 10 20 30)
                          (GwOk ok_response) (GwOk ok_response) planning_state))).
Proof.
  assert (Hp : st_status planning_state = Planning) by reflexivity.
  assert (Hok : fst (checkRateLimit cfg_1000_per_minute 10 planning_state) = true)
    by (vm_compute; reflexivity).
  assert (Hparse : parse_plan (or_opt_str (resp_text ok_response) "[]") =
    inr (JArray [mkRaw "Research" "find facts" "Researcher"; mkRaw "Write" "draft report" "Writer"]))
    by reflexivity.
  split; [exact Hp|split; [exact Hok|split; [exact Hparse|]]].
  pose proof (planning_step_builds_plan parse_plan cfg_1000_per_minute "q" (mkTimes 10 20 30)
                (GwOk ok_response) planning_state ok_response _ Hp Hok Hparse) as H.
  cbv zeta in H. destruct H as (_ & _ & _ & _ & _ & Hnd & _). exact Hnd.
Defined.


Lemma replanBlock_last (JSON_parse : string -> JsError + JsonVal) (cfg : RateLimitConfig)
    (query : string) (tm : StepTimes) (gw2 : GwResult) (prompts : AgentPrompts)
    (i : nat) (updated : list Task) (s : AppState) :
  length updated = S i ->
  replanBlock JSON_parse cfg query tm gw2 prompts i updated s = inr (updated, 0, s).
Proof. intros H. unfold replanBlock. rewrite H, Nat.sub_diag. reflexivity. Qed.


(** Extra X8: a working step on the last task that passes the rate check
    and whose agent call succeeds marks that task completed, with the response
    text (or the default text when there is none) and the response's tokens.
    It moves the index past the end, leaves the other tasks as they were,
    and adds the task's tokens to the usage, whatever the re-planning call
    would return. The log gains an action, two info entries and a result
    entry. *)
Theorem last_task_step_completes
    (JSON_parse : string -> JsError + JsonVal) (cfg : RateLimitConfig) (query : string)
    (tm : StepTimes) (gw2 : GwResult) (st : AppState) (task : Task) (r : Response)
    (Hw : st_status st = Working)
    (Ht : tasks st !! currentTaskIndex st = Some task)
    (Hlast : length (tasks st) = S (currentTaskIndex st))
    (Hok : fst (checkRateLimit cfg (t_start tm) st) = true) :
  let i := currentTaskIndex st in
  let s1 := snd (checkRateLimit cfg (t_start tm) st) st in
  let st' := processNextStep JSON_parse cfg query tm (GwOk r) gw2 st in
  st_status st' = Working /\ currentTaskIndex st' = S i /\
  tasks st' !! i = Some (mkTask (id task) (title task) (description task) (assignedAgent task)
                           Completed
                           (Some (or_opt_str (resp_text r) "Task completed, but no text output generated."))
                           (Some (or_opt_Z (totalTokenCount r) 0))) /\
  (forall j, j <> i -> tasks st' !! j = tasks st !! j) /\
  tokenUsage st' = tokenUsage s1 + or_opt_Z (totalTokenCount r) 0 /\
  map log_type (logs st') = map log_type (logs st) ++ [LAction; LInfo; LInfo; LResult].
Proof.
  cbv zeta.
  assert (currentTaskIndex st < length (tasks st))%nat as Hlt by lia.
  unfold processNextStep. rewrite Hw. cbv beta iota zeta. simpl negb. simpl andb.
  destruct (checkRateLimit_shape cfg (t_start tm) st) as [H|[H|[t H]]]; rewrite H in *;
    clear H; [| |simpl in Hok; discriminate].
  all: cbv beta iota zeta; simpl negb; simpl status_eqb; cbv iota.
  all: rewrite (proj2 (Nat.leb_gt _ _) Hlt), Ht.
  all: unfold executeAgentTask; cbv beta zeta iota.
  all: rewrite replanBlock_last; [|rewrite markCompleted_length; exact Hlast].
  all: unfold markCompleted.
  all: unfold commitTask; simpl.
  all: split; [rewrite ?Hw; reflexivity|]; split; [reflexivity|].
  all: split; [rewrite list_lookup_imap, Ht; simpl; rewrite Nat.eqb_refl; reflexivity|].
  all: split; [intros j Hj; rewrite list_lookup_imap;
               destruct (tasks st !! j); simpl; [|reflexivity];
               rewrite (proj2 (Nat.eqb_neq _ _) Hj); reflexivity|].
  all: split; [lia|].
  all: rewrite ?map_app; simpl; rewrite <- ?app_assoc; reflexivity.
Qed.

Lemma last_task_step_completes_witness :
  st_status last_task_state = Working /\
  tasks last_task_state !! currentTaskIndex last_task_state = Some task_a /\
  length (tasks last_task_state) = S (currentTaskIndex last_task_state) /\
  fst (checkRateLimit cfg_1000_per_minute 10 last_task_state) = true /\
  currentTaskIndex (processNextStep parse_nothing cfg_1000_per_minute "q" (mkTimes 10 20 30)
                      (GwOk ok_response) (GwOk ok_response) last_task_state) = 1%nat.
Proof.
  assert (Hw : st_status last_task_state = Working) by reflexivity.
  assert (Ht : tasks last_task_state !! currentTaskIndex last_task_state = Some task_a) by reflexivity.
  assert (Hlast : length (tasks last_task_state) = S (currentTaskIndex last_task_state)) by reflexivity.
  assert (Hok : fst (checkRateLimit cfg_1000_per_minute 10 last_task_state) = true)
    by (vm_compute; reflexivity).
  split; [exact Hw|split; [exact Ht|split; [exact Hlast|split; [exact Hok|]]]].
  pose proof (last_task_step_completes parse_nothing cfg_1000_per_minute "q" (mkTimes 10 20 30)
                (GwOk ok_response) last_task_state task_a ok_response Hw Ht Hlast Hok) as H.
  cbv zeta in H. destruct H as (_ & Hi & _). exact Hi.
Defined.


Lemma replanBlock_not_array (JSON_parse : string -> JsError + JsonVal) (cfg : RateLimitConfig)
    (query : string) (tm : StepTimes) (r : Response) (prompts : AgentPrompts)
    (i : nat) (updated : list Task) (s : AppState) (v : NonArray) :
  (S i < length updated)%nat ->
  fst (checkRateLimit cfg (t_mid tm) s) = true ->
  JSON_parse (or_opt_str (resp_text r) "[]") = inr (JOther v) ->
  exists s',
    replanBlock JSON_parse cfg query tm (GwOk r) prompts i updated s =
      inl (mapTypeError "replanResult.tasks" v, s') /\
    tasks s' = tasks s /\ currentTaskIndex s' = currentTaskIndex s /\
    tokenUsage s' = tokenUsage (snd (checkRateLimit cfg (t_mid tm) s) s).
Proof.
  intros Hlen Hok Hj. unfold replanBlock.
  replace (0 <? length updated - S i)%nat with true by (symmetry; apply Nat.ltb_lt; lia).
  destruct (checkRateLimit_shape cfg (t_mid tm) s) as [H|[H|[t H]]]; rewrite H in *;
    [| |discriminate]; cbv beta iota zeta; unfold updateSupervisorPlan at 1; rewrite Hj;
    simpl; eexists; (split; [reflexivity|]); repeat split.
Qed.


(** Extra X9: when tasks remain after the current one and the re-plan
    response is valid JSON but not an array, [replanResult.tasks.map]
    throws inside the step. The step ends paused, with the index unchanged and the current task
    left in progress, and neither the task's result nor its tokens are
    recorded. *)
Theorem replan_non_array_pauses
    (JSON_parse : string -> JsError + JsonVal) (cfg : RateLimitConfig) (query : string)
    (tm : StepTimes) (gw1 : GwResult) (st : AppState) (task : Task) (res : TaskResult)
    (r : Response) (v : NonArray)
    (Hw : st_status st = Working)
    (Ht : tasks st !! currentTaskIndex st = Some task)
    (Hrem : (S (currentTaskIndex st) < length (tasks st))%nat)
    (Hok1 : fst (checkRateLimit cfg (t_start tm) st) = true)
    (Hex : executeAgentTask (assignedAgent task) task
             (task_context (take (currentTaskIndex st) (tasks st))) (agentPrompts st) gw1 = inr res)
    (Hok2 : fst (checkRateLimit cfg (t_mid tm) (snd (checkRateLimit cfg (t_start tm) st) st)) = true)
    (Hj : JSON_parse (or_opt_str (resp_text r) "[]") = inr (JOther v)) :
  let i := currentTaskIndex st in
  let s1 := snd (checkRateLimit cfg (t_start tm) st) st in
  let st' := processNextStep JSON_parse cfg query tm gw1 (GwOk r) st in
  st_status st' = Paused /\ currentTaskIndex st' = i /\
  tasks st' = markInProgress i (tasks st) /\
  tokenUsage st' = tokenUsage (snd (checkRateLimit cfg (t_mid tm) s1) s1).
Proof.
  cbv zeta.
  assert (currentTaskIndex st < length (tasks st))%nat as Hlt by lia.
  assert (S (currentTaskIndex st) < length (markCompleted (currentTaskIndex st) res (tasks st)))%nat
    as Hrem' by (rewrite markCompleted_length; exact Hrem).
  unfold processNextStep. rewrite Hw. cbv beta iota zeta. simpl negb. simpl andb.
  destruct (checkRateLimit_shape cfg (t_start tm) st) as [H|[H|[t H]]]; rewrite H in *;
    clear H; [| |simpl in Hok1; discriminate].
  all: simpl in Hok2.
  all: cbv beta iota zeta; simpl negb; simpl status_eqb; cbv iota.
  all: rewrite (proj2 (Nat.leb_gt _ _) Hlt), Ht, Hex.
  all: match goal with
       | H2 : fst (checkRateLimit _ ?tmid ?X) = true
         |- context [replanBlock ?jp ?c ?q ?t ?g ?p ?i ?u ?s] =>
           rewrite <- (checkRateLimit_ref c tmid s X) in H2 by reflexivity;
           destruct (replanBlock_not_array jp c q t r p i u s v Hrem' H2 Hj)
             as (s' & Hrb & Hts & Hix & Htu);
           rewrite Hrb;
           destruct (stepCatch_frame (mapTypeError "replanResult.tasks" v) s') as (Hs & Hts' & Hix' & Htu' & _);
           rewrite Hs, Hts', Hix', Htu', Hts, Hix, Htu;
           rewrite (checkRateLimit_ref c tmid s X) by reflexivity
       end.
  all: simpl; split; [reflexivity|]; split; [reflexivity|]; split; [reflexivity|].
  all: match goal with
       | |- context [checkRateLimit ?c ?n ?x] =>
           destruct (checkRateLimit_shape c n x) as [H|[H|[t' H]]]; rewrite H in *; clear H
       end.
  all: simpl in *; try discriminate; reflexivity.
Qed.

Lemma replan_non_array_pauses_witness :
  exists res,
    executeAgentTask (assignedAgent task_a) task_a (task_context (take 0 [task_a; task_b]))
      DEFAULT_AGENT_PROMPTS (GwOk ok_response) = inr res /\
    st_status (processNextStep parse_object cfg_1000_per_minute "q" (mkTimes 10 20 30)
                 (GwOk ok_response) (GwOk ok_response) two_task_state) = Paused.
Proof.
  destruct (executeAgentTask (assignedAgent task_a) task_a (task_context (take 0 [task_a; task_b]))
              DEFAULT_AGENT_PROMPTS (GwOk ok_response)) as [e|res] eqn:Hex.
  { vm_compute in Hex. discriminate. }
  exists res. split; [reflexivity|].
  assert (Hw : st_status two_task_state = Working) by reflexivity.
  assert (Ht : tasks two_task_state !! currentTaskIndex two_task_state = Some task_a) by reflexivity.
  assert (Hrem : (S (currentTaskIndex two_task_state) < length (tasks two_task_state))%nat)
    by (simpl; lia).
  assert (Hok1 : fst (checkRateLimit cfg_1000_per_minute 10 two_task_state) = true)
    by (vm_compute; reflexivity).
  assert (Hok2 : fst (checkRateLimit cfg_1000_per_minute 20
                        (snd (checkRateLimit cfg_1000_per_minute 10 two_task_state) two_task_state)) = true)
    by (vm_compute; reflexivity).
  assert (Hj : parse_object (or_opt_str (resp_text ok_response) "[]") = inr (JOther NOther)) by reflexivity.
  pose proof (replan_non_array_pauses parse_object cfg_1000_per_minute "q" (mkTimes 10 20 30)
                (GwOk ok_response) two_task_state task_a res ok_response NOther Hw Ht Hrem Hok1 Hex Hok2 Hj) as H.
  cbv zeta in H. destruct H as (Hs & _). exact Hs.
Defined.


(* ------------------------------------------------------------------ *)
(** ** Handlers, timer and autosave *)


(** Extra X3: pausing with a positive auto-resume delay gives status
    auto-paused with the timer on and [nextAllowedQueryTime = now + delay];
    a timer tick before that time changes nothing, and a tick at or after it
    resumes to working with a new window. With no delay, pausing gives status
    paused, the timer is off and a tick changes nothing; the same holds after
    [handleStopTimer]. Resuming gives working when there are tasks, planning
    otherwise; both are running statuses. *)
Theorem pause_timer_resume (cfg : RateLimitConfig) (now t : Z) (s : AppState) :
  let p := handlePause cfg now s in
  (0 < autoResumeMinutes cfg ->
     st_status p = AutoPaused /\ isTimerActive (st_status p) = true /\
     nextAllowedQueryTime p = now + autoResumeMinutes cfg * 60000 /\
     (t < nextAllowedQueryTime p -> cooldownTick t p = p) /\
     (nextAllowedQueryTime p <= t ->
        cooldownTick t p =
          mkState Working (tasks s) (logs s) (currentTaskIndex s) (tokenUsage s) t
            (nextAllowedQueryTime p) (finalOutput s) (agentPrompts s))) /\
  (autoResumeMinutes cfg <= 0 ->
     st_status p = Paused /\ isTimerActive (st_status p) = false /\ cooldownTick t p = p) /\
  (forall s', cooldownTick t (handleStopTimer s') = handleStopTimer s') /\
  (forall s', st_status (handleResume s') =
                (if (0 <? length (tasks s'))%nat then Working else Planning) /\
              isRunning (st_status (handleResume s')) = true).
Proof.
  cbv zeta. split; [|split; [|split]].
  - intros Hpos. unfold handlePause. rewrite (proj2 (Z.ltb_lt _ _) Hpos). simpl.
    split; [reflexivity|]. split; [reflexivity|]. split; [lia|]. split.
    + intros Hlt. unfold cooldownTick. simpl.
      replace (Z.max 0 (now + autoResumeMinutes cfg * 60 * 1000 - t) <=? 0) with false
        by (symmetry; apply Z.leb_gt; lia). reflexivity.
    + intros Hle. unfold cooldownTick. simpl.
      replace (Z.max 0 (now + autoResumeMinutes cfg * 60 * 1000 - t) <=? 0) with true
        by (symmetry; apply Z.leb_le; lia). reflexivity.
  - intros Hnp. unfold handlePause.
    replace (0 <? autoResumeMinutes cfg) with false by (symmetry; apply Z.ltb_ge; lia).
    split; [reflexivity|]. split; [reflexivity|].
    unfold cooldownTick. simpl. destruct (_ <=? 0); reflexivity.
  - intros s'. unfold cooldownTick, handleStopTimer. simpl. destruct (_ <=? 0); reflexivity.
  - intros s'. unfold handleResume. simpl. destruct (0 <? length (tasks s'))%nat; split; reflexivity.
Qed.


(** Extra X7: [handleStart] does nothing when the query is blank after
    trimming. Otherwise it starts a fresh mission in planning with no tasks,
    no logs, zero usage and a window starting now, keeping the prompts, and
    the first rate check of that mission always passes. [handleRestart] gives
    the same fresh state. *)
Theorem start_resets_mission (query : string) (now loadTime : Z) (st : AppState)
    (cfg : RateLimitConfig) (t : Z) :
  (trim query = "" -> handleStart query now loadTime st = st) /\
  (trim query <> "" ->
     let s0 := handleStart query now loadTime st in
     s0 = mkState Planning [] [] 0 0 now 0 None (agentPrompts st) /\
     fst (checkRateLimit cfg t s0) = true) /\
  handleRestart now loadTime st = mkState Planning [] [] 0 0 now 0 None (agentPrompts st).
Proof.
  split; [|split].
  - intros H. unfold handleStart, truthy. rewrite H. reflexivity.
  - intros H. cbv zeta. unfold handleStart, truthy.
    rewrite (proj2 (String.eqb_neq _ _) H). simpl.
    split; [reflexivity|]. apply checkRateLimit_zero_usage. reflexivity.
  - reflexivity.
Qed.


Lemma role_name_inj (r r' : AgentRole) : role_name r = role_name r' -> r = r'.
Proof. destruct r, r'; simpl; intros H; try reflexivity; discriminate. Qed.


(** Extra X5: after [updatePrompt r p], the prompt of role [r] is [p] and
    the prompts of the other roles are unchanged, so a map with a prompt for
    every role keeps one; after [resetPrompts] every role has a prompt. *)
Theorem prompt_edit_and_reset (r : AgentRole) (p : string) (s : AppState) :
  agentPrompts (updatePrompt r p s) !! role_name r = Some p /\
  (forall r', r' <> r ->
     agentPrompts (updatePrompt r p s) !! role_name r' = agentPrompts s !! role_name r') /\
  (prompts_total (agentPrompts s) -> prompts_total (agentPrompts (updatePrompt r p s))) /\
  prompts_total (agentPrompts (resetPrompts s)).
Proof.
  split; [|split; [|split]].
  - simpl. apply lookup_insert_eq.
  - intros r' Hne. simpl. apply lookup_insert_ne. intros Heq. apply Hne, role_name_inj. congruence.
  - intros Ht r'. simpl. destruct (String.eqb_spec (role_name r) (role_name r')) as [<-|Hne].
    + rewrite lookup_insert_eq. eexists; reflexivity.
    + rewrite lookup_insert_ne; [apply Ht|exact Hne].
  - intros r'. destruct r'; vm_compute; eexists; reflexivity.
Qed.


(** Extra X10: every status saved on page unload is also saved by the
    debounced autosave. A state saved by the autosave and read back on mount
    resumes paused with all its fields, unless it was completed, in which case
    the state present before the resume is kept. Loading a state through the history always
    gives that state, paused. *)
Theorem autosave_resume_roundtrip (loadTime : Z) (s s0 : AppState) :
  (savedOnUnload (st_status s) = true -> debouncedAutosave (st_status s) = true) /\
  (debouncedAutosave (st_status s) = true ->
     resumeAutosave loadTime (loaded_of_state s) s0 =
       if status_eqb (st_status s) CompletedS then s0 else set_status Paused s) /\
  handleLoadSession loadTime (loaded_of_state s) = set_status Paused s.
Proof.
  destruct s as [[] ts lg i u w n f p]; simpl; (split; [intros H; try discriminate; reflexivity|]);
    (split; [intros H; try discriminate H; reflexivity|reflexivity]).
Qed.


(* ------------------------------------------------------------------ *)
(** ** Session history *)

Lemma getSessions_insert (hs : list SavedSession -> string) (hp : string -> JsError + HistoryVal)
    (l : list SavedSession) (ls : LocalStorage) :
  round_trips hs hp l -> getSessions hp (<[STORAGE_KEY := hs l]> ls) = HArray l.
Proof.
  intros [Ht Hp]. unfold getSessions. rewrite lookup_insert_eq. rewrite Ht, Hp. reflexivity.
Qed.

(** Extra X11: when the stored history is an array of sessions and the
    history serialisation round-trips, saving succeeds: the new session has
    id [session-<now1>] and timestamp [now2], and the history read back is
    the new session followed by the old ones, cut to 10. The other storage
    keys are untouched. *)
Theorem history_save_newest_first
    (hs : list SavedSession -> string) (hc : SavedSession -> list string -> string)
    (hp : string -> JsError + HistoryVal)
    (state : AppState) (query : string) (config : RateLimitConfig) (now1 now2 : Z)
    (ls : LocalStorage) (old : list SavedSession)
    (Hold : getSessions hp ls = HArray old)
    (Hrt : round_trips hs hp
             (take 10 (mkSession ("session-" +:+ pretty now1) now2 query config state :: old))) :
  exists ls',
    saveSession hs hc hp state query config now1 now2 ls =
      Some (mkSession ("session-" +:+ pretty now1) now2 query config state, ls') /\
    getSessions hp ls' =
      HArray (take 10 (mkSession ("session-" +:+ pretty now1) now2 query config state :: old)) /\
    (forall k, k <> STORAGE_KEY -> ls' !! k = ls !! k).
Proof.
  unfold saveSession. rewrite Hold. cbv zeta. eexists. split; [reflexivity|].
  split; [exact (getSessions_insert hs hp _ ls Hrt)|].
  intros k Hk. apply lookup_insert_ne. congruence.
Qed.

Lemma history_save_newest_first_witness :
  getSessions history_parse_ex (<[STORAGE_KEY := "[1]"]> ∅) = HArray [session_5] /\
  round_trips history_stringify_ex history_parse_ex
    (take 10 (mkSession ("session-" +:+ pretty 9) 11 "r" cfg_1000_per_minute planning_state
                :: [session_5])) /\
  exists ls',
    saveSession history_stringify_ex history_stringify_chars_ex history_parse_ex planning_state "r"
      cfg_1000_per_minute 9 11 (<[STORAGE_KEY := "[1]"]> ∅) =
      Some (mkSession ("session-" +:+ pretty 9) 11 "r" cfg_1000_per_minute planning_state, ls') /\
    getSessions history_parse_ex ls' =
      HArray (take 10 (mkSession ("session-" +:+ pretty 9) 11 "r" cfg_1000_per_minute planning_state
                         :: [session_5])) /\
    (forall k, k <> STORAGE_KEY -> ls' !! k = (<[STORAGE_KEY := "[1]"]> ∅ : LocalStorage) !! k).
Proof.
  assert (Hold : getSessions history_parse_ex (<[STORAGE_KEY := "[1]"]> ∅) = HArray [session_5])
    by (vm_compute; reflexivity).
  assert (Hrt : round_trips history_stringify_ex history_parse_ex
    (take 10 (mkSession ("session-" +:+ pretty 9) 11 "r" cfg_1000_per_minute planning_state
                :: [session_5])))
    by (split; vm_compute; reflexivity).
  split; [exact Hold|split; [exact Hrt|]].
  exact (history_save_newest_first history_stringify_ex history_stringify_chars_ex history_parse_ex
           planning_state "r" cfg_1000_per_minute 9 11 _ [session_5] Hold Hrt).
Defined.

(** Extra X12: when the stored history is an array of sessions and the
    remaining list round-trips, deleting an id succeeds: it returns and
    stores the sessions whose id differs, in their order, and no session
    with that id is left; the other storage keys are untouched. *)
Theorem history_delete_removes
    (hs : list SavedSession -> string) (hp : string -> JsError + HistoryVal)
    (id : string) (ls : LocalStorage) (old : list SavedSession)
    (Hold : getSessions hp ls = HArray old)
    (Hrt : round_trips hs hp (List.filter (fun s => negb (String.eqb s.(ss_id) id)) old)) :
  exists l ls',
    deleteSession hs hp id ls = Some (l, ls') /\
    l = List.filter (fun s => negb (String.eqb s.(ss_id) id)) old /\
    getSessions hp ls' = HArray l /\
    (forall s, In s l <-> In s old /\ ss_id s <> id) /\
    (forall k, k <> STORAGE_KEY -> ls' !! k = ls !! k).
Proof.
  unfold deleteSession. rewrite Hold. cbv zeta. do 2 eexists.
  split; [reflexivity|]. split; [reflexivity|].
  split; [exact (getSessions_insert hs hp _ ls Hrt)|]. split.
  - intros s. rewrite filter_In. rewrite negb_true_iff, String.eqb_neq. tauto.
  - intros k Hk; apply lookup_insert_ne; congruence.
Qed.

Lemma history_delete_removes_witness :
  getSessions history_parse_ex (<[STORAGE_KEY := "[1]"]> ∅) = HArray [session_5] /\
  round_trips history_stringify_ex history_parse_ex
    (List.filter (fun s => negb (String.eqb s.(ss_id) "session-5")) [session_5]) /\
  exists l ls',
    deleteSession history_stringify_ex history_parse_ex "session-5" (<[STORAGE_KEY := "[1]"]> ∅) =
      Some (l, ls') /\
    l = List.filter (fun s => negb (String.eqb s.(ss_id) "session-5")) [session_5] /\
    getSessions history_parse_ex ls' = HArray l /\
    (forall s, In s l <-> In s [session_5] /\ ss_id s <> "session-5") /\
    (forall k, k <> STORAGE_KEY -> ls' !! k = (<[STORAGE_KEY := "[1]"]> ∅ : LocalStorage) !! k).
Proof.
  assert (Hold : getSessions history_parse_ex (<[STORAGE_KEY := "[1]"]> ∅) = HArray [session_5])
    by (vm_compute; reflexivity).
  assert (Hrt : round_trips history_stringify_ex history_parse_ex
    (List.filter (fun s => negb (String.eqb s.(ss_id) "session-5")) [session_5]))
    by (split; vm_compute; reflexivity).
  split; [exact Hold|split; [exact Hrt|]].
  exact (history_delete_removes history_stringify_ex history_parse_ex "session-5" _ [session_5]
           Hold Hrt).
Defined.


(* ------------------------------------------------------------------ *)
(** ** Keys: trimming, the key editor and the key pool *)


Lemma trim_start_list (s : string) :
  list_ascii_of_string (trim_start s) = dropw (list_ascii_of_string s).
Proof. induction s as [|c s IH]; simpl; [reflexivity|]. destruct (is_ws c); [exact IH|reflexivity]. Qed.


Lemma string_rev_list (s : string) :
  list_ascii_of_string (string_rev s) = rev (list_ascii_of_string s).
Proof. unfold string_rev. apply list_ascii_of_string_of_list_ascii. Qed.


Lemma trim_list (s : string) :
  list_ascii_of_string (trim s) = rev (dropw (rev (dropw (list_ascii_of_string s)))).
Proof. unfold trim. rewrite string_rev_list, trim_start_list, string_rev_list, trim_start_list. reflexivity. Qed.


Lemma dropw_head (l : list ascii) : no_ws_head (dropw l).
Proof.
  induction l as [|c t IH]; simpl; [discriminate|].
  destruct (is_ws c) eqn:E; [exact IH|]. intros c' H; simpl in H; congruence.
Qed.


Lemma dropw_fix (l : list ascii) : no_ws_head l -> dropw l = l.
Proof.
  destruct l as [|c t]; [reflexivity|]. intros H. simpl. rewrite (H c eq_refl). reflexivity.
Qed.


Lemma dropw_suffix (l : list ascii) : exists p, l = p ++ dropw l.
Proof.
  induction l as [|c t [p Hp]]; simpl; [exists []; reflexivity|].
  destruct (is_ws c); [exists (c :: p); simpl; congruence|exists []; reflexivity].
Qed.


Lemma trim_idem (s : string) : trim (trim s) = trim s.
Proof.
  assert (list_ascii_of_string (trim (trim s)) = list_ascii_of_string (trim s)) as H.
  { rewrite !trim_list.
    set (u := dropw (list_ascii_of_string s)).
    set (v := dropw (rev u)).
    assert (no_ws_head u) as Hu by apply dropw_head.
    assert (no_ws_head v) as Hv by apply dropw_head.
    assert (no_ws_head (rev v)) as Hrv.
    { destruct (dropw_suffix (rev u)) as [p Hp]. fold v in Hp.
      intros c Hc. apply Hu. rewrite <- (rev_involutive u), Hp, rev_app_distr.
      destruct (rev v); [discriminate|exact Hc]. }
    rewrite (dropw_fix (rev v) Hrv), rev_involutive, (dropw_fix v Hv). reflexivity. }
  rewrite <- (string_of_list_ascii_of_string (trim (trim s))), H.
  apply string_of_list_ascii_of_string.
Qed.


(** Extra X14: every key saved by the key editor is non-empty, is left
    unchanged by [trim] (no leading or trailing JavaScript white space) and
    is the trim of an edited key. *)
Theorem saved_keys_nonempty_trimmed (keys : list string) (k : string)
    (Hk : In k (handleSaveKeys keys)) :
  k <> "" /\ trim k = k /\ exists k0, In k0 keys /\ trim k0 = k.
Proof.
  revert Hk. unfold handleSaveKeys. rewrite filter_In, in_map_iff.
  intros [[k0 [<- Hin]] Hl]. split; [|split; [apply trim_idem|exists k0; tauto]].
  intros He. rewrite He in Hl. discriminate.
Qed.

Lemma saved_keys_nonempty_trimmed_witness :
  In "k1" (handleSaveKeys [" k1 "; "  "; "k2"]) /\
  ("k1" <> "" /\ trim "k1" = "k1" /\ exists k0, In k0 [" k1 "; "  "; "k2"] /\ trim k0 = "k1").
Proof.
  assert (Hk : In "k1" (handleSaveKeys [" k1 "; "  "; "k2"])) by (vm_compute; left; reflexivity).
  split; [exact Hk|]. exact (saved_keys_nonempty_trimmed [" k1 "; "  "; "k2"] "k1" Hk).
Defined.


(** Extra X15: opening the key editor on at most five non-empty keys that
    [trim] leaves unchanged shows five slots, and saving without an edit
    gives back the same keys in the same order. *)
Theorem key_editor_roundtrip (apiKeys : list string)
    (Hlen : (length apiKeys <= 5)%nat)
    (Hk : Forall (fun k => k <> "" /\ trim k = k) apiKeys) :
  length (openKeys apiKeys) = 5%nat /\ handleSaveKeys (openKeys apiKeys) = apiKeys.
Proof.
  unfold openKeys. rewrite take_ge by (rewrite length_app, length_replicate; lia).
  split; [rewrite length_app, length_replicate; lia|].
  unfold handleSaveKeys. rewrite map_app, List.filter_app.
  assert (List.filter (fun k => (0 <? String.length k)%nat) (map trim (replicate (5 - length apiKeys) "")) = []) as ->.
  { generalize (5 - length apiKeys)%nat. intros n. induction n; simpl; [reflexivity|]. exact IHn. }
  rewrite app_nil_r. induction Hk as [|k ks [Hne Ht] Hks IH]; [reflexivity|].
  simpl. rewrite Ht. destruct k as [|c k']; [contradiction|]. simpl.
  f_equal. apply IH. simpl in Hlen. lia.
Qed.

Lemma key_editor_roundtrip_witness :
  (length ["k1"; "k2"] <= 5)%nat /\
  Forall (fun k => k <> "" /\ trim k = k) ["k1"; "k2"] /\
  handleSaveKeys (openKeys ["k1"; "k2"]) = ["k1"; "k2"].
Proof.
  assert (Hlen : (length ["k1"; "k2"] <= 5)%nat) by (simpl; lia).
  assert (Hk : Forall (fun k => k <> "" /\ trim k = k) ["k1"; "k2"]).
  { repeat constructor; try discriminate; vm_compute; reflexivity. }
  split; [exact Hlen|split; [exact Hk|]].
  exact (proj2 (key_editor_roundtrip ["k1"; "k2"] Hlen Hk)).
Defined.


(** Extra X16: the key editor always shows five slots; slot [i] holds the
    [i]-th key, or the empty string when there are fewer keys. *)
Theorem openKeys_length (apiKeys : list string) :
  length (openKeys apiKeys) = 5%nat /\
  (forall i, (i < 5)%nat -> openKeys apiKeys !! i = Some (default "" (apiKeys !! i))).
Proof.
  unfold openKeys. split.
  - rewrite length_take, length_app, length_replicate. lia.
  - intros i Hi. rewrite lookup_take, decide_True by lia.
    destruct (decide (i < length apiKeys)%nat).
    + rewrite lookup_app_l by lia. destruct (apiKeys !! i) eqn:E; [reflexivity|].
      apply lookup_ge_None in E. lia.
    + rewrite lookup_app_r by lia. rewrite lookup_replicate_2 by lia.
      rewrite lookup_ge_None_2 by lia. reflexivity.
Qed.


Lemma truthy_true (s : string) : truthy s = true <-> s <> "".
Proof. unfold truthy. rewrite negb_true_iff, String.eqb_neq. tauto. Qed.


Lemma sharedKeys_nonempty (env : Env) (k : string) : In k (sharedKeys env) -> k <> "".
Proof. unfold sharedKeys. rewrite filter_In, truthy_true. tauto. Qed.


Lemma in_api_key_order (r : AgentRole) : In r api_key_order.
Proof. destruct r; simpl; tauto. Qed.


Lemma keyPool_In (env : Env) (k : string) :
  In k (keyPool env) <->
  k <> "" /\ (In k (sharedKeys env) \/ exists r, VITE_GEMINI_API_KEY_ROLE env r = Some k).
Proof.
  unfold keyPool. rewrite set_from_go_In, filter_In, in_app_iff, in_map_iff, truthy_true.
  simpl. split.
  - intros [[[[r [Hr _]] | Hs] Hne] _]; split; [exact Hne| |exact Hne|tauto].
    unfold API_KEYS, or_opt_str, or_str in Hr.
    destruct (VITE_GEMINI_API_KEY_ROLE env r) as [k'|] eqn:E.
    + destruct (truthy k') eqn:Ht; [right; exists r; congruence|].
      destruct (truthy (default "" (head (sharedKeys env)))) eqn:Ht2; [|subst; contradiction].
      left. destruct (sharedKeys env); simpl in *; [discriminate|left; congruence].
    + destruct (truthy (default "" (head (sharedKeys env)))) eqn:Ht2; [|subst; contradiction].
      left. destruct (sharedKeys env); simpl in *; [discriminate|left; congruence].
  - intros [Hne [Hs | [r Hr]]]; split; [|tauto| |tauto]; split; try exact Hne; [tauto|].
    left. exists r. split; [|apply in_api_key_order].
    unfold API_KEYS. rewrite Hr. simpl. unfold or_str.
    apply truthy_true in Hne. rewrite Hne. reflexivity.
Qed.

(** Extra X17: a key is in the pool exactly when it is non-empty and is a
    shared key or the role-specific key of some role. *)
Theorem keyPool_members (env : Env) (k : string) :
  In k (keyPool env) <->
  k <> "" /\ (In k (sharedKeys env) \/ exists r, VITE_GEMINI_API_KEY_ROLE env r = Some k).
Proof. exact (keyPool_In env k). Qed.


(** Extra X18: the key pool has no duplicates, and the module loads exactly
    when there is a shared key or a non-empty role-specific key. *)
Theorem keyPool_loads_iff (env : Env) :
  List.NoDup (keyPool env) /\
  (moduleLoads env <->
   sharedKeys env <> [] \/ exists r k, VITE_GEMINI_API_KEY_ROLE env r = Some k /\ k <> "").
Proof.
  split; [apply set_from_go_NoDup|]. unfold moduleLoads. split.
  - intros H. destruct (keyPool env) as [|k ks] eqn:E; [contradiction|].
    assert (In k (keyPool env)) as Hk by (rewrite E; simpl; tauto).
    apply keyPool_In in Hk. destruct Hk as [Hne [Hs|[r Hr]]].
    + left. intros He. rewrite He in Hs. exact Hs.
    + right. exists r, k. tauto.
  - intros Hc He. destruct Hc as [Hs|[r [k [Hr Hne]]]].
    + destruct (sharedKeys env) as [|k ks] eqn:E; [contradiction|].
      assert (In k (keyPool env)) as Hk.
      { apply keyPool_In. split; [apply (sharedKeys_nonempty env); rewrite E; simpl; tauto|].
        left. rewrite E. simpl. tauto. }
      rewrite He in Hk. exact Hk.
    + assert (In k (keyPool env)) as Hk by (apply keyPool_In; split; [exact Hne|right; exists r; exact Hr]).
      rewrite He in Hk. exact Hk.
Qed.


(** Extra X19: every key read from a comma-separated key list is non-empty
    and is left unchanged by [trim] (no leading or trailing JavaScript white
    space). *)
Theorem parseKeyList_trimmed (raw : option string) (k : string)
    (Hk : In k (parseKeyList raw)) :
  k <> "" /\ trim k = k.
Proof.
  revert Hk. destruct raw as [r|]; simpl; [|tauto].
  rewrite filter_In, in_map_iff, truthy_true. intros [[k0 [<- _]] Hne].
  split; [exact Hne|apply trim_idem].
Qed.

Lemma parseKeyList_trimmed_witness :
  In "b" (parseKeyList (Some " a, ,b ")) /\ ("b" <> "" /\ trim "b" = "b").
Proof.
  assert (Hk : In "b" (parseKeyList (Some " a, ,b "))) by (vm_compute; right; left; reflexivity).
  split; [exact Hk|]. exact (parseKeyList_trimmed (Some " a, ,b ") "b" Hk).
Defined.


(* ------------------------------------------------------------------ *)
(** ** Configuration panel and time display *)


Lemma or_opt_Z_nonzero (a : option Z) (d : Z) : d <> 0 -> or_opt_Z a d <> 0.
Proof. intros Hd. destruct a as [n|]; simpl; [|exact Hd]. destruct (Z.eqb_spec n 0); assumption. Qed.


(** Extra X20: the default configuration has a non-zero budget, a non-zero
    period and a non-negative auto-resume delay, and every sequence of panel
    edits keeps these three properties, whatever [parseInt] returns. *)
Theorem config_edits_keep_valid (parseInt : string -> option Z) (es : list ConfigEdit) (c : RateLimitConfig)
    (Hc : config_ok c) :
  config_ok DEFAULT_RATE_LIMIT /\ config_ok (applyConfigEdits parseInt es c).
Proof.
  split; [unfold config_ok; simpl; lia|].
  unfold applyConfigEdits. revert c Hc. induction es as [|e es IH]; intros c Hc; simpl; [exact Hc|].
  apply IH. destruct Hc as [H1 [H2 H3]]. destruct e; unfold config_ok; simpl.
  - split; [apply or_opt_Z_nonzero; lia|tauto].
  - split; [tauto|split; [apply or_opt_Z_nonzero; lia|tauto]].
  - tauto.
  - split; [tauto|split; [tauto|lia]].
Qed.

Lemma config_edits_keep_valid_witness :
  config_ok DEFAULT_RATE_LIMIT /\
  config_ok (applyConfigEdits parseInt_ex
               [EditMaxTokens "-5"; EditPeriodValue "0"; EditAutoResume "-5"] DEFAULT_RATE_LIMIT).
Proof.
  assert (Hc : config_ok DEFAULT_RATE_LIMIT) by (unfold config_ok; simpl; lia).
  exact (config_edits_keep_valid parseInt_ex
           [EditMaxTokens "-5"; EditPeriodValue "0"; EditAutoResume "-5"] DEFAULT_RATE_LIMIT Hc).
Defined.


Lemma padStart2_small (s : Z) : 0 <= s < 60 -> String.length (padStart2 (pretty s)) = 2%nat.
Proof.
  intros Hs. assert (forallb (fun n => Nat.eqb (String.length (padStart2 (pretty (Z.of_nat n)))) 2) (seq 0 60) = true) as Hall by (vm_compute; reflexivity).
  rewrite forallb_forall in Hall. specialize (Hall (Z.to_nat s)).
  rewrite Z2Nat.id in Hall by lia. apply Nat.eqb_eq, Hall. apply in_seq. lia.
Qed.


(** Extra X21: for a non-negative number of milliseconds, [formatTime]
    prints minutes, a colon and a two-character seconds field, where
    [60 * minutes + seconds] is the number of milliseconds divided by 1000 and
    rounded up, and the seconds are below 60. *)
Theorem formatTime_minutes_seconds (ms : Z) (H : 0 <= ms) :
  exists m s, formatTime ms = pretty m +:+ ":" +:+ padStart2 (pretty s) /\
    String.length (padStart2 (pretty s)) = 2%nat /\ 0 <= s < 60 /\ 0 <= m /\
    1000 * (60 * m + s) - 1000 < ms <= 1000 * (60 * m + s).
Proof.
  unfold formatTime. set (sec := - ((- ms) / 1000)).
  assert (1000 * sec - 1000 < ms <= 1000 * sec) as Hsec.
  { unfold sec. pose proof (Z.div_mod (- ms) 1000 ltac:(lia)). pose proof (Z.mod_pos_bound (- ms) 1000 ltac:(lia)). lia. }
  exists (sec / 60), (Z.rem sec 60).
  assert (0 <= sec) as Hs0 by lia.
  rewrite Z.rem_mod_nonneg by lia.
  pose proof (Z.div_mod sec 60 ltac:(lia)). pose proof (Z.mod_pos_bound sec 60 ltac:(lia)).
  split; [reflexivity|]. split; [apply padStart2_small; lia|].
  split; [lia|]. split; [apply Z.div_pos; lia|]. lia.
Qed.

Lemma formatTime_minutes_seconds_witness :
  0 <= 61500 /\
  exists m s, formatTime 61500 = pretty m +:+ ":" +:+ padStart2 (pretty s) /\
    String.length (padStart2 (pretty s)) = 2%nat /\ 0 <= s < 60 /\ 0 <= m /\
    1000 * (60 * m + s) - 1000 < 61500 <= 1000 * (60 * m + s).
Proof.
  assert (H : 0 <= 61500) by lia.
  split; [exact H|]. exact (formatTime_minutes_seconds 61500 H).
Defined.
